(** * The qrscan pipeline: producer [qrscan_producer.py] and consumer
    [rabbitmq_consumer.py]

    A shallow embedding of the two scripts.  Python text is a list of code
    points, a message body is a list of octets, and the effects of the
    scripts (printing, the HTTP request, the child process, the AMQP calls)
    are events appended to a trace.  The collaborators ([requests],
    [subprocess], the broker connection) are oracles that may answer
    differently at every call: they receive the whole history. *)

From Stdlib Require Import ZArith List Bool String Ascii Lia.
Import ListNotations.
Local Open Scope Z_scope.

(** ** Python text and bytes *)

Module PyText.

(** A [str] is a sequence of code points, a [bytes] a sequence of octets. *)
Definition str := list Z.
Definition bytes := list Z.

(** An ASCII literal of the scripts. *)
Definition lit (s : string) : str :=
  map (fun a => Z.of_N (N_of_ascii a)) (list_ascii_of_string s).

Definition comma : Z := 44.

Definition between (lo hi c : Z) : bool := (lo <=? c) && (c <=? hi).

(** [str.isspace] on one code point, the set [str.strip()] removes. *)
Definition is_space (c : Z) : bool :=
  between 0x09 0x0D c || between 0x1C 0x20 c
  || (c =? 0x85) || (c =? 0xA0) || (c =? 0x1680)
  || between 0x2000 0x200A c || (c =? 0x2028) || (c =? 0x2029)
  || (c =? 0x202F) || (c =? 0x205F) || (c =? 0x3000).

Fixpoint lstrip (s : str) : str :=
  match s with
  | [] => []
  | c :: r => if is_space c then lstrip r else s
  end.

Definition rstrip (s : str) : str := rev (lstrip (rev s)).

(** [s.strip()] *)
Definition strip (s : str) : str := rstrip (lstrip s).

(** [s.split(sep)] for a one-character separator: every occurrence
    splits, and the result is never empty. *)
Fixpoint split (sep : Z) (s : str) : list str :=
  match s with
  | [] => [[]]
  | c :: r =>
      if c =? sep then [] :: split sep r
      else match split sep r with
           | w :: ws => (c :: w) :: ws
           | [] => [[c]]
           end
  end.

(** [sep.join(parts)] *)
Fixpoint join (sep : str) (parts : list str) : str :=
  match parts with
  | [] => []
  | [p] => p
  | p :: ps => p ++ sep ++ join sep ps
  end.

Definition count_char (c : Z) (s : str) : nat :=
  List.length (filter (Z.eqb c) s).

Definition str_eqb (a b : str) : bool :=
  if list_eq_dec Z.eq_dec a b then true else false.

End PyText.
Import PyText.

(** ** UTF-8, the codec of [bytes.decode()] and of a [str] body in
    [basic_publish] *)

Module Utf8.

Definition is_cont (b : Z) : bool := between 0x80 0xBF b.

(** Strict decoding: overlong forms, surrogates and values above
    U+10FFFF are errors ([None] stands for [UnicodeDecodeError]). *)
Fixpoint decode (b : bytes) : option str :=
  match b with
  | [] => Some []
  | b0 :: r0 =>
      if between 0x00 0x7F b0 then option_map (cons b0) (decode r0)
      else if between 0xC2 0xDF b0 then
        match r0 with
        | b1 :: r1 =>
            if is_cont b1
            then option_map (cons ((b0 - 0xC0) * 64 + (b1 - 0x80))) (decode r1)
            else None
        | _ => None
        end
      else if between 0xE0 0xEF b0 then
        match r0 with
        | b1 :: b2 :: r2 =>
            if between (if b0 =? 0xE0 then 0xA0 else 0x80)
                       (if b0 =? 0xED then 0x9F else 0xBF) b1
               && is_cont b2
            then option_map
                   (cons ((b0 - 0xE0) * 4096 + (b1 - 0x80) * 64 + (b2 - 0x80)))
                   (decode r2)
            else None
        | _ => None
        end
      else if between 0xF0 0xF4 b0 then
        match r0 with
        | b1 :: b2 :: b3 :: r3 =>
            if between (if b0 =? 0xF0 then 0x90 else 0x80)
                       (if b0 =? 0xF4 then 0x8F else 0xBF) b1
               && is_cont b2 && is_cont b3
            then option_map
                   (cons ((b0 - 0xF0) * 262144 + (b1 - 0x80) * 4096
                          + (b2 - 0x80) * 64 + (b3 - 0x80)))
                   (decode r3)
            else None
        | _ => None
        end
      else None
  end.

(** A code point that UTF-8 can carry: in range and not a surrogate. *)
Definition is_scalar (c : Z) : bool :=
  between 0 0xD7FF c || between 0xE000 0x10FFFF c.

Definition encode_char (c : Z) : option bytes :=
  if negb (is_scalar c) then None
  else if c <? 0x80 then Some [c]
  else if c <? 0x800 then Some [0xC0 + c / 64; 0x80 + c mod 64]
  else if c <? 0x10000 then
    Some [0xE0 + c / 4096; 0x80 + (c / 64) mod 64; 0x80 + c mod 64]
  else
    Some [0xF0 + c / 262144; 0x80 + (c / 4096) mod 64;
          0x80 + (c / 64) mod 64; 0x80 + c mod 64].

(** [s.encode('utf-8')]; [None] stands for [UnicodeEncodeError]. *)
Fixpoint encode (s : str) : option bytes :=
  match s with
  | [] => Some []
  | c :: r =>
      match encode_char c, encode r with
      | Some bs, Some br => Some (bs ++ br)
      | _, _ => None
      end
  end.

End Utf8.

(** ** Effects: exceptions, collaborators, events *)

(** A raised Python exception, by class name.  All the classes the two
    scripts meet ([ValueError], [UnicodeDecodeError], what [requests],
    [subprocess] and [pika] raise) derive from [Exception]. *)
Inductive exception : Type :=
| Exception (class_name : string).

Definition ValueError : exception := Exception "ValueError".
Definition UnicodeDecodeError : exception := Exception "UnicodeDecodeError".
Definition UnicodeEncodeError : exception := Exception "UnicodeEncodeError".

Inductive result (A : Type) : Type :=
| Ok (a : A)
| Raise (e : exception).
Arguments Ok {A} a.
Arguments Raise {A} e.

(** What [requests.get(url)] does: a response with its status code, or an
    exception. *)
Inductive http_reply : Type :=
| HttpResponse (status_code : Z)
| HttpRaises (e : exception).

(** What [subprocess.run(cmd, capture_output=True, text=True)] does: a
    [CompletedProcess], or an exception. *)
Inductive proc_reply : Type :=
| Completed (returncode : Z) (stdout stderr : str)
| ProcRaises (e : exception).

(** The calls made on the broker connection and channel. *)
Inductive amqp_call : Type :=
| BlockingConnection (host : str)
| OpenChannel
| QueueDeclare (queue : str)
| BasicPublish (exchange routing_key : str) (body : bytes)
| BasicConsume (queue : str) (auto_ack : bool)
| ConnectionClose.

(** The lines the scripts print. *)
Inductive log_line : Type :=
| LogReceived (body : str)
| LogCallingFlask (flask_url : str)
| LogFlaskStatus (status_code : Z)
| LogFlaskError (e : exception)
| LogRunningNode (command_line : str)
| LogNodeOutput (stdout : str)
| LogNodeStderr (stderr : str)
| LogNodeError (e : exception)
| LogWaiting
| LogSent (data : str).

Inductive event : Type :=
| EvPrint (l : log_line)
| EvHttpGet (url : str) (reply : http_reply)
| EvSubprocessRun (cmd : list str) (reply : proc_reply)
| EvAmqp (call : amqp_call) (raised : option exception)
| EvDeliver (delivery_tag : Z) (body : bytes)
| EvBasicAck (delivery_tag : Z)
| EvBasicNack (delivery_tag : Z) (requeue : bool).

Definition trace := list event.

(** The collaborators.  Each oracle sees the history so far, so the same
    request may succeed once and fail the next time. *)
Record env : Type := {
  requests_get : trace -> str -> http_reply;
  subprocess_run : trace -> list str -> proc_reply;
  amqp : trace -> amqp_call -> option exception
}.

(** ** The monad of the scripts

    A computation reads the history and yields a result or a raised
    exception, together with the events it added. *)
Definition M (A : Type) : Type := trace -> result A * trace.

Definition ret {A} (a : A) : M A := fun _ => (Ok a, []).

Definition raise {A} (e : exception) : M A := fun _ => (Raise e, []).

Definition bind {A B} (m : M A) (f : A -> M B) : M B :=
  fun h =>
    match m h with
    | (Ok a, n1) => let (r, n2) := f a (h ++ n1) in (r, n1 ++ n2)
    | (Raise e, n1) => (Raise e, n1)
    end.

(** [try: body  except Exception as e: handler(e)] *)
Definition try_except {A} (body : M A) (handler : exception -> M A) : M A :=
  fun h =>
    match body h with
    | (Ok a, n1) => (Ok a, n1)
    | (Raise e, n1) => let (r, n2) := handler e (h ++ n1) in (r, n1 ++ n2)
    end.

Definition emit (e : event) : M unit := fun _ => (Ok tt, [e]).

(** Runs [m] and also returns the events it added. *)
Definition listen {A} (m : M A) : M (A * trace) :=
  fun h =>
    match m h with
    | (Ok a, n) => (Ok (a, n), n)
    | (Raise e, n) => (Raise e, n)
    end.

Declare Scope py_scope.
Delimit Scope py_scope with py.
Notation "x <- m ;; k" := (bind m (fun x => k))
  (at level 100, m at next level, right associativity) : py_scope.
Notation "m ;; k" := (bind m (fun _ => k))
  (at level 100, right associativity) : py_scope.
Local Open Scope py_scope.

(** [print(...)], taken never to fail. *)
Definition print (l : log_line) : M unit := emit (EvPrint l).

Definition call_requests_get (E : env) (url : str) : M Z :=
  fun h =>
    let reply := requests_get E h url in
    (match reply with
     | HttpResponse status_code => Ok status_code
     | HttpRaises e => Raise e
     end, [EvHttpGet url reply]).

Definition call_subprocess_run (E : env) (cmd : list str) : M (Z * str * str) :=
  fun h =>
    let reply := subprocess_run E h cmd in
    (match reply with
     | Completed returncode stdout stderr => Ok (returncode, stdout, stderr)
     | ProcRaises e => Raise e
     end, [EvSubprocessRun cmd reply]).

Definition call_amqp (E : env) (c : amqp_call) : M unit :=
  fun h =>
    let raised := amqp E h c in
    (match raised with
     | None => Ok tt
     | Some e => Raise e
     end, [EvAmqp c raised]).

Definition of_option {A} (e : exception) (o : option A) : M A :=
  match o with
  | Some a => ret a
  | None => raise e
  end.

(** ** The queue, as the consumer sees it

    The part of the broker that matters to the consumer: the messages
    ready for delivery, and where a delivered message goes once the
    consumer has settled it. *)

Module Broker.

Record broker : Type := {
  ready : list bytes;
  next_tag : Z;
  acked : list bytes;
  dead_lettered : list bytes;
  unacked : list bytes
}.

Inductive settlement : Type :=
| Acked
| Requeued
| DeadLettered
| Unsettled.

(** What the events of one callback decide for the delivery [tag]: the
    first [basic_ack] or [basic_nack] with that tag. *)
Fixpoint settlement_of (tag : Z) (events : trace) : settlement :=
  match events with
  | [] => Unsettled
  | EvBasicAck t :: rest =>
      if t =? tag then Acked else settlement_of tag rest
  | EvBasicNack t requeue :: rest =>
      if t =? tag then (if requeue then Requeued else DeadLettered)
      else settlement_of tag rest
  | _ :: rest => settlement_of tag rest
  end.

(** The queue after delivery [tag] of [body], the head of [ready], has
    been handled.  With [auto_ack] the broker forgets the message at
    delivery, whatever the callback does. *)
Definition settle (auto_ack : bool) (tag : Z) (body : bytes)
    (events : trace) (b : broker) : broker :=
  let rest := tl (ready b) in
  let next := next_tag b + 1 in
  match (if auto_ack then Acked else settlement_of tag events) with
  | Acked =>
      {| ready := rest; next_tag := next; acked := acked b ++ [body];
         dead_lettered := dead_lettered b; unacked := unacked b |}
  | Requeued =>
      {| ready := body :: rest; next_tag := next; acked := acked b;
         dead_lettered := dead_lettered b; unacked := unacked b |}
  | DeadLettered =>
      {| ready := rest; next_tag := next; acked := acked b;
         dead_lettered := dead_lettered b ++ [body]; unacked := unacked b |}
  | Unsettled =>
      {| ready := rest; next_tag := next; acked := acked b;
         dead_lettered := dead_lettered b; unacked := unacked b ++ [body] |}
  end.

Definition fresh (messages : list bytes) : broker :=
  {| ready := messages; next_tag := 1; acked := [];
     dead_lettered := []; unacked := [] |}.

End Broker.
Import Broker.

(** ** rabbitmq_consumer.py *)

Module Consumer.

Definition RABBITMQ_HOST : str := lit "localhost".
Definition RABBITMQ_QUEUE : str := lit "qrscan".
Definition FLASK_URL_BASE : str := lit "http://localhost:5000/?query=".
Definition NODE_SCRIPT_PATH : str := lit "/path/to/S500.js".

(** [a, b = parts]: exactly two values, or [ValueError]. *)
Definition unpack2 (parts : list str) : result (str * str) :=
  match parts with
  | [a; b] => Ok (a, b)
  | _ => Raise ValueError
  end.

(** The decoding that [process_message] performs on the text of a
    message: [op_area, _ = body.strip().split(',')]. *)
Definition split_fields (query_param : str) : result (str * str) :=
  unpack2 (split comma query_param).

Definition lift_result {A} (r : result A) : M A := fun _ => (r, []).

Definition node_cmd (op_area : str) : list str :=
  [lit "node"; NODE_SCRIPT_PATH; lit "--add"; lit "--db"; op_area].

Definition process_message (E : env) (body : str) : M unit :=
  print (LogReceived body) ;;
  let query_param := strip body in
  let flask_url := FLASK_URL_BASE ++ query_param in
  print (LogCallingFlask flask_url) ;;
  try_except
    (status_code <- call_requests_get E flask_url ;;
     print (LogFlaskStatus status_code))
    (fun e => print (LogFlaskError e)) ;;
  try_except
    (fields <- lift_result (split_fields query_param) ;;
     let op_area := fst fields in
     print (LogRunningNode (join (lit " ") (node_cmd op_area))) ;;
     completed <- call_subprocess_run E (node_cmd op_area) ;;
     let '(_, stdout, stderr) := completed in
     print (LogNodeOutput stdout) ;;
     match stderr with
     | [] => ret tt
     | _ :: _ => print (LogNodeStderr stderr)
     end)
    (fun e => print (LogNodeError e)).

Definition basic_ack (delivery_tag : Z) : M unit :=
  emit (EvBasicAck delivery_tag).

(** [callback(ch, method, properties, body)]; [method] carries the
    delivery tag, [properties] is unused. *)
Definition callback (E : env) (delivery_tag : Z) (body : bytes) : M unit :=
  text <- of_option UnicodeDecodeError (Utf8.decode body) ;;
  process_message E text ;;
  basic_ack delivery_tag.

(** [channel.basic_consume(queue, on_message_callback)]: [main] does not
    pass [auto_ack], and pika's signature gives it the default [False]. *)
Definition basic_consume_default_auto_ack : bool := false.

(** [channel.start_consuming()]: the callback runs on each delivery, one
    at a time; [EvDeliver] marks the moment a message is handed to the
    callback.  An exception of the callback ends the loop.  The real loop
    then waits for more messages; the model returns the queue once it is
    drained, or when [fuel] deliveries have been handled. *)
Fixpoint start_consuming (E : env) (auto_ack : bool) (fuel : nat)
    (b : broker) : M broker :=
  match fuel with
  | O => ret b
  | S fuel' =>
      match ready b with
      | [] => ret b
      | body :: _ =>
          let tag := next_tag b in
          emit (EvDeliver tag body) ;;
          handled <- listen (callback E tag body) ;;
          start_consuming E auto_ack fuel'
            (settle auto_ack tag body (snd handled) b)
      end
  end.

Definition main (E : env) (fuel : nat) (b : broker) : M broker :=
  call_amqp E (BlockingConnection RABBITMQ_HOST) ;;
  call_amqp E OpenChannel ;;
  call_amqp E (QueueDeclare RABBITMQ_QUEUE) ;;
  print LogWaiting ;;
  call_amqp E (BasicConsume RABBITMQ_QUEUE basic_consume_default_auto_ack) ;;
  start_consuming E basic_consume_default_auto_ack fuel b.

End Consumer.

(** ** qrscan_producer.py *)

Module Producer.

Definition RABBITMQ_HOST : str := lit "localhost".
Definition RABBITMQ_QUEUE : str := lit "qrscan".

(** [basic_publish(..., body=data)] with a [str]: pika sends
    [data.encode('utf-8')]. *)
Definition send_to_rabbitmq (E : env) (data : str) : M unit :=
  call_amqp E (BlockingConnection RABBITMQ_HOST) ;;
  call_amqp E OpenChannel ;;
  call_amqp E (QueueDeclare RABBITMQ_QUEUE) ;;
  body <- of_option UnicodeEncodeError (Utf8.encode data) ;;
  call_amqp E (BasicPublish [] RABBITMQ_QUEUE body) ;;
  call_amqp E ConnectionClose ;;
  print (LogSent data).

(** Where the loop of [main] stands: still polling, or left by an
    exception. *)
Inductive loop_state : Type :=
| Polling
| Stopped (e : exception).

(** [main]: the [while True] loop, followed over the first results of
    [scan_qr_code()], one element of [scans] per iteration; an empty
    result is skipped.  The loop has no exit of its own: once these scans
    are used up it is still polling, unless a call has raised, which is
    the only way out. *)
Fixpoint main (E : env) (scans : list str) (h : trace)
    : loop_state * trace :=
  match scans with
  | [] => (Polling, [])
  | qr_data :: later =>
      match qr_data with
      | [] => main E later h
      | _ :: _ =>
          match send_to_rabbitmq E qr_data h with
          | (Ok _, n1) =>
              let (state, n2) := main E later (h ++ n1) in (state, n1 ++ n2)
          | (Raise e, n1) => (Stopped e, n1)
          end
      end
  end.

End Producer.

(** ** Reading a trace *)

Module Observe.

Definition http_calls (t : trace) : list str :=
  flat_map (fun e => match e with EvHttpGet url _ => [url] | _ => [] end) t.

Definition http_replies (t : trace) : list http_reply :=
  flat_map (fun e => match e with EvHttpGet _ r => [r] | _ => [] end) t.

Definition subprocess_calls (t : trace) : list (list str) :=
  flat_map
    (fun e => match e with EvSubprocessRun cmd _ => [cmd] | _ => [] end) t.

Definition proc_replies (t : trace) : list proc_reply :=
  flat_map
    (fun e => match e with EvSubprocessRun _ r => [r] | _ => [] end) t.

Definition acks (t : trace) : list Z :=
  flat_map (fun e => match e with EvBasicAck tag => [tag] | _ => [] end) t.

Definition nacks (t : trace) : list (Z * bool) :=
  flat_map
    (fun e => match e with EvBasicNack tag rq => [(tag, rq)] | _ => [] end) t.

Definition deliveries (t : trace) : list (Z * bytes) :=
  flat_map
    (fun e => match e with EvDeliver tag body => [(tag, body)] | _ => [] end) t.

Definition amqp_calls (t : trace) : list (amqp_call * option exception) :=
  flat_map (fun e => match e with EvAmqp c r => [(c, r)] | _ => [] end) t.

Definition connects (t : trace) : list str :=
  flat_map
    (fun e => match e with
              | EvAmqp (BlockingConnection host) _ => [host]
              | _ => []
              end) t.

Definition published (t : trace) : list bytes :=
  flat_map
    (fun e => match e with
              | EvAmqp (BasicPublish _ _ body) None => [body]
              | _ => []
              end) t.

Definition subscriptions (t : trace) : list (str * bool) :=
  flat_map
    (fun e => match e with
              | EvAmqp (BasicConsume queue auto_ack) _ => [(queue, auto_ack)]
              | _ => []
              end) t.

End Observe.
Import Observe.

(** ** The policy in the words of the specification

    The scripts have no outcome taxonomy; these definitions follow the
    specification's sections 4.3 and 4.4 and are what the code is compared
    with. *)

Module SpecPolicy.

Inductive outcome : Type :=
| Success
| TransientFailure
| PermanentFailure.

(** Section 4.3, notification action: 2xx and 3xx succeed, 4xx other
    than 429 is permanent, anything else (5xx, 429, no response) is
    transient. *)
Definition classify_http (r : http_reply) : outcome :=
  match r with
  | HttpResponse c =>
      if between 200 399 c then Success
      else if between 400 499 c && negb (c =? 429) then PermanentFailure
      else TransientFailure
  | HttpRaises _ => TransientFailure
  end.

(** Section 4.3, database-mutation action: the exit code decides. *)
Definition classify_proc (r : proc_reply) : outcome :=
  match r with
  | Completed 0 _ _ => Success
  | Completed _ _ _ => TransientFailure
  | ProcRaises _ => TransientFailure
  end.

(** The combination policy. *)
Definition combine (http process : outcome) : outcome :=
  match http, process with
  | Success, Success => Success
  | TransientFailure, _ => TransientFailure
  | _, TransientFailure => TransientFailure
  | _, _ => PermanentFailure
  end.

(** Section 4.4: what becomes of the message. *)
Definition route (r : outcome) : settlement :=
  match r with
  | Success => Acked
  | TransientFailure => Requeued
  | PermanentFailure => DeadLettered
  end.

(** Modelled from the spec: the encoder of section 4.1,
    ["<area>,<station>"].  The scripts have no encoder: the producer
    publishes the text that [scan_qr_code] of the module [qr_scan]
    returns, and that module is not among the sources. *)
Definition wire (area station : str) : str := area ++ [comma] ++ station.

(** A payload section 8 calls malformed: no delimiter, more than one, or
    an empty field. *)
Definition malformed (payload : str) : bool :=
  match split comma payload with
  | [a; b] => (Nat.eqb (List.length a) 0) || (Nat.eqb (List.length b) 0)
  | _ => true
  end.

End SpecPolicy.
Import SpecPolicy.

(** ** One delivery, end to end *)

Module Delivery.

Import Consumer.

(** The decoding path of a delivery: [body.decode()] in [callback], then
    [strip] and [split] with the two-name unpacking in
    [process_message]. *)
Definition decode (body : bytes) : result (str * str) :=
  match Utf8.decode body with
  | Some text => split_fields (strip text)
  | None => Raise UnicodeDecodeError
  end.

(** The URL requested for a body, and the commands run for it. *)
Definition url_of (body : bytes) : list str :=
  match Utf8.decode body with
  | Some text => [FLASK_URL_BASE ++ strip text]
  | None => []
  end.

Definition commands_of (body : bytes) : list (list str) :=
  match decode body with
  | Ok (op_area, _) => [node_cmd op_area]
  | Raise _ => []
  end.

Definition decodable (body : bytes) : Prop := Utf8.decode body <> None.

(** The tags [first], [first + 1], ... of [n] deliveries in a row. *)
Fixpoint tags_from (first : Z) (n : nat) : list Z :=
  match n with
  | O => []
  | S n' => first :: tags_from (first + 1) n'
  end.

(** The queue once every ready message has been acknowledged. *)
Definition drained (b : broker) : broker :=
  {| ready := [];
     next_tag := next_tag b + Z.of_nat (List.length (ready b));
     acked := acked b ++ ready b;
     dead_lettered := dead_lettered b;
     unacked := unacked b |}.

(** The events of one run of [callback] from an empty history. *)
Definition events_of (E : env) (tag : Z) (body : bytes) : trace :=
  snd (callback E tag body []).

(** The events of consuming the queue [messages] with manual
    acknowledgment. *)
Definition consumed (E : env) (fuel : nat) (messages : list bytes) : trace :=
  snd (start_consuming E false fuel (fresh messages) []).

End Delivery.
Import Delivery.

(** ** The claims of the specification, as they are worded *)

Module Stated.

Import Consumer.

(** The per-event result follows the combination table: the message is
    routed as the combined outcome of the two actions says. *)
Definition combination_policy (E : env) (tag : Z) (body : bytes) : Prop :=
  let events := events_of E tag body in
  match http_replies events, proc_replies events with
  | [hr], [pr] =>
      settlement_of tag events
      = route (combine (classify_http hr) (classify_proc pr))
  | _, _ => True
  end.

(** A malformed payload is dead-lettered and no action runs. *)
Definition malformed_dead_lettered (E : env) (tag : Z) (body : bytes) : Prop :=
  forall text,
    Utf8.decode body = Some text ->
    malformed (strip text) = true ->
    let events := events_of E tag body in
    settlement_of tag events = DeadLettered
    /\ http_calls events = []
    /\ subprocess_calls events = [].

(** Two deliveries of one event: one HTTP call and one process in all. *)
Definition idempotent_redelivery (E : env) (body : bytes) : Prop :=
  let events := consumed E 2 [body; body] in
  List.length (http_calls events) = 1%nat
  /\ List.length (subprocess_calls events) = 1%nat.

Definition always_transient (E : env) : Prop :=
  (forall h url, classify_http (requests_get E h url) = TransientFailure)
  /\ (forall h cmd, classify_proc (subprocess_run E h cmd) = TransientFailure).

(** With actions that always fail transiently the message ends
    dead-lettered, after at most [N] redeliveries. *)
Definition bounded_retry (E : env) (N : nat) (body : bytes) : Prop :=
  always_transient E ->
  exists fuel b,
    fst (start_consuming E false fuel (fresh [body]) []) = Ok b
    /\ ready b = []
    /\ In body (dead_lettered b)
    /\ (List.length (deliveries (consumed E fuel [body])) <= N + 1)%nat.

(** Decoding yields two non-empty fields or the malformed-message
    error, and nothing else. *)
Definition decode_total (body : bytes) : Prop :=
  match decode body with
  | Ok (area, station) => area <> [] /\ station <> []
  | Raise e => e = ValueError
  end.

(** The round-trip law. *)
Definition round_trip (area station : str) : Prop :=
  area <> [] -> station <> [] ->
  ~ In comma area -> ~ In comma station ->
  exists body,
    Utf8.encode (wire area station) = Some body
    /\ decode body = Ok (area, station).

(** When the connection cannot be opened, [publish] reconnects and
    retries exactly once. *)
Definition one_reconnect (E : env) (data : str) : Prop :=
  amqp E [] (BlockingConnection Producer.RABBITMQ_HOST) <> None ->
  List.length (connects (snd (Producer.send_to_rabbitmq E data []))) = 2%nat.

End Stated.

(** ** Sample collaborators and messages *)

Module Sample.

(** Collaborators that always give the same answers; the broker
    connection never fails. *)
Definition steady (hr : http_reply) (pr : proc_reply) : env :=
  {| requests_get := fun _ _ => hr;
     subprocess_run := fun _ _ => pr;
     amqp := fun _ _ => None |}.

Definition all_well : env := steady (HttpResponse 200) (Completed 0 [] []).

(** HTTP answers 200, the process exits with 1. *)
Definition node_fails : env := steady (HttpResponse 200) (Completed 1 [] []).

(** Nothing answers: the request raises, the process exits with 1. *)
Definition all_down : env :=
  steady (HttpRaises (Exception "ConnectionError")) (Completed 1 [] []).

(** The first attempt to connect to the broker fails, later ones would
    succeed. *)
Definition flaky_broker : env :=
  {| requests_get := fun _ _ => HttpResponse 200;
     subprocess_run := fun _ _ => Completed 0 [] [];
     amqp := fun h c =>
       match c, connects h with
       | BlockingConnection _, [] => Some (Exception "AMQPConnectionError")
       | _, _ => None
       end |}.

Definition op7_s500 : bytes := lit "OP7,S500".
Definition no_delimiter : bytes := lit "OP7".
Definition empty_area : bytes := lit ",S500".
Definition padded_area : str := lit " OP7".
Definition s500 : str := lit "S500".

End Sample.

(** ** Reading the logs and the producer loop *)

Module Reading.

(** The lines printed, in order. *)
Definition printed (t : trace) : list log_line :=
  flat_map (fun e => match e with EvPrint l => [l] | _ => [] end) t.

(** The scans that [if qr_data:] lets through. *)
Definition truthy (scans : list str) : list str :=
  filter (fun s => match s with [] => false | _ :: _ => true end) scans.

(** The bodies of the scans let through, as [basic_publish] sends them. *)
Definition bodies_of (scans : list str) : list bytes :=
  flat_map
    (fun s => match Utf8.encode s with Some body => [body] | None => [] end)
    (truthy scans).

Definition prefix_of {A} (p l : list A) : Prop := exists rest, l = p ++ rest.

(** The two actions of [process_message], in the order they are made. *)
Inductive action : Type :=
| Request (url : str)
| Run (cmd : list str).

Definition actions (t : trace) : list action :=
  flat_map
    (fun e => match e with
              | EvHttpGet url _ => [Request url]
              | EvSubprocessRun cmd _ => [Run cmd]
              | _ => []
              end) t.

Fixpoint str_same (a b : str) : bool :=
  match a, b with
  | [], [] => true
  | x :: a', y :: b' => (x =? y) && str_same a' b'
  | _, _ => false
  end.

Fixpoint cmd_same (a b : list str) : bool :=
  match a, b with
  | [], [] => true
  | x :: a', y :: b' => str_same x y && cmd_same a' b'
  | _, _ => false
  end.

(** The actions that [callback] owes a delivered body before it may
    acknowledge it: the HTTP request for the trimmed text and then, when
    that text unpacks into two fields, the run of the process.  A body
    that is not UTF-8 has none: its delivery ends the consumer. *)
Definition owed (body : bytes) : option (list action) :=
  match Utf8.decode body with
  | Some text =>
      Some (Request (Consumer.FLASK_URL_BASE ++ strip text)
            :: map Run (commands_of body))
  | None => None
  end.

(** The acknowledgment discipline as a monitor over the trace of the
    consumer.
    - [Setup]: nothing is delivered before a successful subscription, and
      the subscription is never made with [auto_ack].
    - [Idle]: subscribed, no message in hand; the next event is a
      delivery.
    - [Handling tag pending]: the message [tag] is in hand and [pending]
      are the actions still owed to it.  A request or a run is accepted
      only if it is the next action owed; the acknowledgment is accepted
      only with the tag of the message and only once nothing is owed, so
      after the HTTP request and the process have both returned or
      raised; no delivery is accepted while a message is in hand.
    - [Crashed]: a body that is not UTF-8 was delivered; nothing may
      follow, in particular no acknowledgment. *)
Inductive stage : Type :=
| Setup
| Idle
| Handling (tag : Z) (pending : list action)
| Crashed.

Definition discipline_step (s : stage) (e : event) : option stage :=
  match s, e with
  | Crashed, _ => None
  | _, EvPrint _ => Some s
  | Setup, EvAmqp (BasicConsume _ auto_ack) raised =>
      if auto_ack then None
      else match raised with None => Some Idle | Some _ => Some Setup end
  | Setup, EvAmqp _ _ => Some Setup
  | Idle, EvDeliver tag body =>
      match owed body with
      | Some pending => Some (Handling tag pending)
      | None => Some Crashed
      end
  | Handling tag (Request url :: pending), EvHttpGet url' _ =>
      if str_same url url' then Some (Handling tag pending) else None
  | Handling tag (Run cmd :: pending), EvSubprocessRun cmd' _ =>
      if cmd_same cmd cmd' then Some (Handling tag pending) else None
  | Handling tag [], EvBasicAck t =>
      if t =? tag then Some Idle else None
  | _, _ => None
  end.

Fixpoint discipline (s : stage) (t : trace) : option stage :=
  match t with
  | [] => Some s
  | e :: rest =>
      match discipline_step s e with
      | Some s' => discipline s' rest
      | None => None
      end
  end.

(** Two answers of [subprocess.run] that differ at most in the exit
    code. *)
Definition same_but_exit_code (r1 r2 : proc_reply) : Prop :=
  match r1, r2 with
  | Completed _ stdout1 stderr1, Completed _ stdout2 stderr2 =>
      stdout1 = stdout2 /\ stderr1 = stderr2
  | ProcRaises e1, ProcRaises e2 => e1 = e2
  | _, _ => False
  end.

End Reading.
Import Reading.

Import Consumer.

(** * Proofs *)

(** * Facts about text *)

Section TextFacts.

Variable sep : Z.

Lemma split_nonempty (s : str) : split sep s <> [].
Proof.
  destruct s as [|c r]; simpl; [discriminate|].
  destruct (c =? sep); [discriminate|].
  destruct (split sep r); discriminate.
Qed.

Lemma split_length (s : str) :
  List.length (split sep s) = S (count_char sep s).
Proof.
  unfold count_char.
  induction s as [|c r IH]; simpl; [reflexivity|].
  rewrite (Z.eqb_sym sep c).
  destruct (c =? sep); simpl.
  - now rewrite IH.
  - pose proof (split_nonempty r) as Hne.
    destruct (split sep r) as [|w ws]; [contradiction|exact IH].
Qed.

Lemma split_without_sep (s : str) : ~ In sep s -> split sep s = [s].
Proof.
  induction s as [|c r IH]; simpl; intros Hn; [reflexivity|].
  destruct (Z.eqb_spec c sep) as [->|_]; [exfalso; auto|].
  rewrite IH by tauto. reflexivity.
Qed.

Lemma split_at_sep (a b : str) :
  ~ In sep a -> split sep (a ++ sep :: b) = a :: split sep b.
Proof.
  induction a as [|c r IH]; simpl; intros Hn.
  - now rewrite Z.eqb_refl.
  - destruct (Z.eqb_spec c sep) as [->|_]; [exfalso; auto|].
    rewrite IH by tauto. reflexivity.
Qed.

Lemma count_char_zero (s : str) : count_char sep s = 0%nat -> ~ In sep s.
Proof.
  unfold count_char. induction s as [|c r IH]; simpl; [tauto|].
  destruct (Z.eqb_spec sep c) as [->|Hc]; simpl; [discriminate|].
  intros H [E|Hin]; [congruence|]. now apply IH.
Qed.

(** A split in two pieces finds the one separator of the text. *)
Lemma split_two (s a b : str) :
  split sep s = [a; b] ->
  s = a ++ sep :: b /\ ~ In sep a /\ ~ In sep b.
Proof.
  revert a. induction s as [|c r IH]; simpl; intros a H; [discriminate|].
  destruct (Z.eqb_spec c sep) as [->|Hc].
  - injection H as <- Hr.
    pose proof (split_length r) as Hl. rewrite Hr in Hl. simpl in Hl.
    assert (Hb : ~ In sep r) by (apply count_char_zero; lia).
    rewrite split_without_sep in Hr by exact Hb.
    injection Hr as <-. simpl. tauto.
  - destruct (split sep r) as [|w ws] eqn:Hs; [discriminate|].
    injection H as <- ->.
    destruct (IH w eq_refl) as (-> & Ha & Hb).
    simpl. repeat split; auto. intros [->|Hin]; auto.
Qed.

End TextFacts.

Lemma lstrip_fixed (s : str) : is_space (hd comma s) = false -> lstrip s = s.
Proof. destruct s as [|c r]; simpl; [reflexivity|]. now intros ->. Qed.

Lemma rstrip_fixed (s : str) : is_space (last s comma) = false -> rstrip s = s.
Proof.
  unfold rstrip. intros H.
  destruct s as [|c r] using rev_ind; [reflexivity|].
  rewrite last_last in H. rewrite rev_app_distr. simpl. rewrite H.
  simpl. now rewrite rev_involutive.
Qed.

Lemma strip_fixed (s : str) :
  is_space (hd comma s) = false -> is_space (last s comma) = false ->
  strip s = s.
Proof.
  intros Hh Hl. unfold strip. rewrite (lstrip_fixed s Hh). now apply rstrip_fixed.
Qed.

Lemma split_fields_spec (s : str) :
  match split_fields s with
  | Ok (a, b) => s = a ++ comma :: b /\ ~ In comma a /\ ~ In comma b
  | Raise e => e = ValueError /\ count_char comma s <> 1%nat
  end.
Proof.
  unfold split_fields, unpack2.
  pose proof (split_length comma s) as Hl.
  destruct (split comma s) as [|a [|b [|c l]]] eqn:Hs; simpl in Hl;
    try (split; [reflexivity|lia]).
  now apply split_two.
Qed.

(** * UTF-8 *)

Lemma between_true (lo hi c : Z) : lo <= c <= hi -> between lo hi c = true.
Proof. unfold between. lia. Qed.

Lemma between_false (lo hi c : Z) : c < lo \/ hi < c -> between lo hi c = false.
Proof. unfold between. lia. Qed.

(** One step of the decoder, the tail left alone. *)
Lemma decode_cons (b0 : Z) (r0 : bytes) :
  Utf8.decode (b0 :: r0)
  = if between 0x00 0x7F b0 then option_map (cons b0) (Utf8.decode r0)
    else if between 0xC2 0xDF b0 then
      match r0 with
      | b1 :: r1 =>
          if Utf8.is_cont b1
          then option_map (cons ((b0 - 0xC0) * 64 + (b1 - 0x80))) (Utf8.decode r1)
          else None
      | _ => None
      end
    else if between 0xE0 0xEF b0 then
      match r0 with
      | b1 :: b2 :: r2 =>
          if between (if b0 =? 0xE0 then 0xA0 else 0x80)
                     (if b0 =? 0xED then 0x9F else 0xBF) b1
             && Utf8.is_cont b2
          then option_map
                 (cons ((b0 - 0xE0) * 4096 + (b1 - 0x80) * 64 + (b2 - 0x80)))
                 (Utf8.decode r2)
          else None
      | _ => None
      end
    else if between 0xF0 0xF4 b0 then
      match r0 with
      | b1 :: b2 :: b3 :: r3 =>
          if between (if b0 =? 0xF0 then 0x90 else 0x80)
                     (if b0 =? 0xF4 then 0x8F else 0xBF) b1
             && Utf8.is_cont b2 && Utf8.is_cont b3
          then option_map
                 (cons ((b0 - 0xF0) * 262144 + (b1 - 0x80) * 4096
                        + (b2 - 0x80) * 64 + (b3 - 0x80)))
                 (Utf8.decode r3)
          else None
      | _ => None
      end
    else None.
Proof. reflexivity. Qed.

Ltac split_eqb :=
  repeat match goal with
         | |- context [?a =? ?b] => destruct (Z.eqb_spec a b)
         end.

Ltac settle_between :=
  repeat match goal with
         | |- context [between ?lo ?hi ?x] =>
             first [ rewrite (between_true lo hi x) by lia
                   | rewrite (between_false lo hi x) by lia ]
         end.

Ltac run_decoder :=
  rewrite decode_cons; unfold Utf8.is_cont; cbv beta iota;
  split_eqb; settle_between; cbn [andb]; try lia;
  do 2 f_equal; lia.

Section DecodeSequences.

Variable rest : bytes.

Lemma decode_one (c : Z) :
  0 <= c < 0x80 ->
  Utf8.decode (c :: rest) = option_map (cons c) (Utf8.decode rest).
Proof. intros. run_decoder. Qed.

Lemma decode_two (q r : Z) :
  2 <= q < 32 -> 0 <= r < 64 ->
  Utf8.decode (0xC0 + q :: 0x80 + r :: rest)
  = option_map (cons (64 * q + r)) (Utf8.decode rest).
Proof. intros. run_decoder. Qed.

Lemma decode_three (q r1 r0 : Z) :
  0 <= q < 16 -> 0 <= r1 < 64 -> 0 <= r0 < 64 ->
  (q = 0 -> 32 <= r1) -> (q = 13 -> r1 < 32) ->
  Utf8.decode (0xE0 + q :: 0x80 + r1 :: 0x80 + r0 :: rest)
  = option_map (cons (4096 * q + 64 * r1 + r0)) (Utf8.decode rest).
Proof. intros. run_decoder. Qed.

Lemma decode_four (q r2 r1 r0 : Z) :
  0 <= q < 5 -> 0 <= r2 < 64 -> 0 <= r1 < 64 -> 0 <= r0 < 64 ->
  (q = 0 -> 16 <= r2) -> (q = 4 -> r2 < 16) ->
  Utf8.decode (0xF0 + q :: 0x80 + r2 :: 0x80 + r1 :: 0x80 + r0 :: rest)
  = option_map (cons (262144 * q + 4096 * r2 + 64 * r1 + r0))
      (Utf8.decode rest).
Proof. intros. run_decoder. Qed.

End DecodeSequences.

Lemma is_scalar_range (c : Z) :
  Utf8.is_scalar c = true ->
  0 <= c <= 0xD7FF \/ 0xE000 <= c <= 0x10FFFF.
Proof. unfold Utf8.is_scalar, between. lia. Qed.

(** The base-64 digits of a code point. *)
Lemma digits64 (c : Z) :
  0 <= c ->
  c = 64 * (c / 64) + c mod 64
  /\ c = 4096 * (c / 4096) + 64 * ((c / 64) mod 64) + c mod 64
  /\ c = 262144 * (c / 262144) + 4096 * ((c / 4096) mod 64)
         + 64 * ((c / 64) mod 64) + c mod 64
  /\ 0 <= c mod 64 < 64 /\ 0 <= (c / 64) mod 64 < 64
  /\ 0 <= (c / 4096) mod 64 < 64.
Proof.
  intros Hc.
  replace (c / 4096) with (c / 64 / 64)
    by (rewrite Z.div_div by lia; reflexivity).
  replace (c / 262144) with (c / 64 / 64 / 64)
    by (rewrite !Z.div_div by lia; reflexivity).
  pose proof (Z.div_mod c 64 ltac:(lia)).
  pose proof (Z.div_mod (c / 64) 64 ltac:(lia)).
  pose proof (Z.div_mod (c / 64 / 64) 64 ltac:(lia)).
  pose proof (Z.mod_pos_bound c 64 ltac:(lia)).
  pose proof (Z.mod_pos_bound (c / 64) 64 ltac:(lia)).
  pose proof (Z.mod_pos_bound (c / 64 / 64) 64 ltac:(lia)).
  lia.
Qed.

Lemma decode_encode_char (c : Z) (bs rest : bytes) :
  Utf8.encode_char c = Some bs ->
  Utf8.decode (bs ++ rest) = option_map (cons c) (Utf8.decode rest).
Proof.
  unfold Utf8.encode_char.
  destruct (Utf8.is_scalar c) eqn:Hs; simpl; [|discriminate].
  apply is_scalar_range in Hs.
  assert (H0 : 0 <= c) by lia.
  destruct (digits64 c H0) as (E1 & E2 & E3 & B0 & B1 & B2).
  destruct (Z.ltb_spec c 0x80);
    [|destruct (Z.ltb_spec c 0x800); [|destruct (Z.ltb_spec c 0x10000)]];
    intros [= <-]; cbn [app].
  - apply decode_one. lia.
  - rewrite E1 at 3. apply decode_two; lia.
  - rewrite E2 at 4. apply decode_three; lia.
  - rewrite E3 at 5. apply decode_four; lia.
Qed.

Lemma decode_encode (s : str) (body : bytes) :
  Utf8.encode s = Some body -> Utf8.decode body = Some s.
Proof.
  revert body. induction s as [|c r IH]; simpl; intros body H.
  - now injection H as <-.
  - destruct (Utf8.encode_char c) as [bs|] eqn:Hc; [|discriminate].
    destruct (Utf8.encode r) as [br|]; [|discriminate].
    injection H as <-.
    rewrite (decode_encode_char c bs br Hc), (IH br eq_refl). reflexivity.
Qed.

Lemma encode_scalars (s : str) :
  Forall (fun c => Utf8.is_scalar c = true) s -> Utf8.encode s <> None.
Proof.
  induction 1 as [|c r Hc _ IH]; simpl; [discriminate|].
  unfold Utf8.encode_char. rewrite Hc. simpl.
  destruct (Utf8.encode r); [|contradiction].
  destruct (c <? 128); [discriminate|].
  destruct (c <? 2048); [discriminate|].
  destruct (c <? 65536); discriminate.
Qed.

(** * The consumer *)

Ltac run_script :=
  cbv beta iota zeta delta
    [process_message callback basic_ack bind try_except print emit ret raise
     call_requests_get call_subprocess_run call_amqp lift_result of_option
     listen fst snd];
  cbn [app].

Lemma process_message_run (E : env) (text : str) (h : trace) :
  exists events,
    process_message E text h = (Ok tt, events)
    /\ http_calls events = [FLASK_URL_BASE ++ strip text]
    /\ subprocess_calls events
       = match split_fields (strip text) with
         | Ok (op_area, _) => [node_cmd op_area]
         | Raise _ => []
         end
    /\ acks events = [] /\ nacks events = [] /\ deliveries events = []
    /\ amqp_calls events = [].
Proof.
  run_script.
  destruct (requests_get E _ _) as [code|e1];
    (destruct (split_fields (strip text)) as [[op_area station]|e2];
     [destruct (subprocess_run E _ _) as [rc out [|c err]|e3]|]);
    run_script; eexists; repeat split.
Qed.

Lemma callback_run (E : env) (tag : Z) (body : bytes) (text : str) (h : trace) :
  Utf8.decode body = Some text ->
  callback E tag body h
  = (Ok tt, snd (process_message E text h) ++ [EvBasicAck tag]).
Proof.
  intros Hd.
  destruct (process_message_run E text h) as (events & Hrun & _).
  unfold callback, of_option, bind. rewrite Hd. cbn [ret app].
  rewrite app_nil_r, Hrun. reflexivity.
Qed.

Lemma callback_undecodable (E : env) (tag : Z) (body : bytes) (h : trace) :
  Utf8.decode body = None ->
  callback E tag body h = (Raise UnicodeDecodeError, []).
Proof. intros Hd. unfold callback, of_option, bind. now rewrite Hd. Qed.

Lemma discipline_app (s : stage) (t1 t2 : trace) :
  discipline s (t1 ++ t2)
  = match discipline s t1 with
    | Some s' => discipline s' t2
    | None => None
    end.
Proof.
  revert s. induction t1 as [|e t1 IH]; intros s; simpl; [reflexivity|].
  destruct (discipline_step s e); [apply IH|reflexivity].
Qed.

Lemma str_same_refl (a : str) : str_same a a = true.
Proof. induction a as [|x a IH]; simpl; [reflexivity|]. now rewrite Z.eqb_refl. Qed.

Lemma cmd_same_refl (c : list str) : cmd_same c c = true.
Proof.
  induction c as [|x c IH]; simpl; [reflexivity|]. now rewrite str_same_refl.
Qed.

Lemma discipline_step_print (s : stage) (l : log_line) :
  s <> Crashed -> discipline_step s (EvPrint l) = Some s.
Proof.
  destruct s as [| |tag [|[url|cmd] pending]|]; intros H;
    [reflexivity..|now contradiction H].
Qed.

(** A stretch of events that only prints, requests and runs is accepted
    while a message is in hand, and pays off exactly its own actions. *)
Lemma discipline_pays (tag : Z) (t : trace) :
  forall rest,
    acks t = [] -> nacks t = [] -> deliveries t = [] -> amqp_calls t = [] ->
    discipline (Handling tag (actions t ++ rest)) t = Some (Handling tag rest).
Proof.
  induction t as [|e t IH]; intros rest Ha Hn Hd Hq; [reflexivity|].
  destruct e; simpl in Ha, Hn, Hd, Hq; try discriminate.
  - change (actions (EvPrint l :: t)) with (actions t).
    cbn [discipline]. rewrite discipline_step_print by discriminate.
    now apply IH.
  - change (actions (EvHttpGet url reply :: t)) with (Request url :: actions t).
    cbn [app discipline discipline_step]. rewrite str_same_refl.
    now apply IH.
  - change (actions (EvSubprocessRun cmd reply :: t))
      with (Run cmd :: actions t).
    cbn [app discipline discipline_step]. rewrite cmd_same_refl.
    now apply IH.
Qed.

(** The actions of [process_message], in order. *)
Lemma process_message_actions (E : env) (text : str) (h : trace) :
  actions (snd (process_message E text h))
  = Request (FLASK_URL_BASE ++ strip text)
    :: map Run (match split_fields (strip text) with
                | Ok (op_area, _) => [node_cmd op_area]
                | Raise _ => []
                end).
Proof.
  run_script.
  destruct (requests_get E _ _) as [code|e1];
    (destruct (split_fields (strip text)) as [[op_area station]|e2];
     [destruct (subprocess_run E _ _) as [rc out [|c err]|e3]|]);
    reflexivity.
Qed.

Lemma settlement_skip (tag : Z) (t1 t2 : trace) :
  acks t1 = [] -> nacks t1 = [] ->
  settlement_of tag (t1 ++ t2) = settlement_of tag t2.
Proof.
  induction t1 as [|e t1 IH]; simpl; intros Ha Hn; [reflexivity|].
  destruct e; simpl in Ha, Hn; try discriminate; now apply IH.
Qed.

Lemma settlement_acked (tag : Z) (t : trace) :
  acks t = [] -> nacks t = [] ->
  settlement_of tag (t ++ [EvBasicAck tag]) = Acked.
Proof.
  intros Ha Hn. rewrite settlement_skip by assumption.
  simpl. now rewrite Z.eqb_refl.
Qed.

(** What one delivery does when the body is text. *)
Lemma delivery_run (E : env) (tag : Z) (body : bytes) (h : trace) :
  decodable body ->
  exists events,
    callback E tag body h = (Ok tt, events ++ [EvBasicAck tag])
    /\ http_calls events = url_of body
    /\ subprocess_calls events = commands_of body
    /\ acks events = [] /\ nacks events = [] /\ deliveries events = []
    /\ amqp_calls events = []
    /\ owed body = Some (actions events).
Proof.
  unfold decodable, url_of, commands_of, owed, commands_of, decode.
  destruct (Utf8.decode body) as [text|] eqn:Hd; [intros _|congruence].
  pose proof (process_message_actions E text h) as Hact.
  destruct (process_message_run E text h)
    as (events & Hrun & Hh & Hs & Ha & Hn & Hdl & Hq).
  rewrite Hrun in Hact. cbn [snd] in Hact.
  exists events. rewrite (callback_run E tag body text h Hd), Hrun.
  repeat (split; [assumption || reflexivity|]). now rewrite Hact.
Qed.

Lemma drained_empty (b : broker) : ready b = [] -> drained b = b.
Proof.
  destruct b as [r n a d u]. unfold drained. simpl. intros ->. simpl.
  now rewrite Z.add_0_r, app_nil_r.
Qed.

Section ObserversDistribute.

Variables t1 t2 : trace.

Lemma http_calls_app : http_calls (t1 ++ t2) = http_calls t1 ++ http_calls t2.
Proof. apply flat_map_app. Qed.

Lemma subprocess_calls_app :
  subprocess_calls (t1 ++ t2) = subprocess_calls t1 ++ subprocess_calls t2.
Proof. apply flat_map_app. Qed.

Lemma acks_app : acks (t1 ++ t2) = acks t1 ++ acks t2.
Proof. apply flat_map_app. Qed.

Lemma nacks_app : nacks (t1 ++ t2) = nacks t1 ++ nacks t2.
Proof. apply flat_map_app. Qed.

Lemma deliveries_app : deliveries (t1 ++ t2) = deliveries t1 ++ deliveries t2.
Proof. apply flat_map_app. Qed.

Lemma amqp_calls_app : amqp_calls (t1 ++ t2) = amqp_calls t1 ++ amqp_calls t2.
Proof. apply flat_map_app. Qed.

Lemma connects_app : connects (t1 ++ t2) = connects t1 ++ connects t2.
Proof. apply flat_map_app. Qed.

Lemma subscriptions_app :
  subscriptions (t1 ++ t2) = subscriptions t1 ++ subscriptions t2.
Proof. apply flat_map_app. Qed.

End ObserversDistribute.

Create Rewrite HintDb observe.
#[local] Hint Rewrite http_calls_app subprocess_calls_app acks_app nacks_app
  deliveries_app amqp_calls_app connects_app subscriptions_app : observe.

(** One turn of the loop. *)
Lemma start_consuming_step (E : env) (fuel : nat) (b : broker) (h : trace)
    (body : bytes) (rest : list bytes) :
  ready b = body :: rest ->
  let tag := next_tag b in
  let h1 := h ++ [EvDeliver tag body] in
  start_consuming E false (S fuel) b h
  = match callback E tag body h1 with
    | (Ok _, n) =>
        let (r, n2) :=
          start_consuming E false fuel (settle false tag body n b) (h1 ++ n) in
        (r, EvDeliver tag body :: n ++ n2)
    | (Raise e, n) => (Raise e, EvDeliver tag body :: n)
    end.
Proof.
  intros Hr. simpl. rewrite Hr. unfold bind, listen, emit. cbn [app].
  destruct (callback E (next_tag b) body (h ++ [EvDeliver (next_tag b) body]))
    as [[u|e] n]; [|reflexivity].
  cbn [snd].
  destruct (start_consuming E false fuel _ _); reflexivity.
Qed.

Lemma start_consuming_idle (E : env) (fuel : nat) (b : broker) (h : trace) :
  ready b = [] -> start_consuming E false fuel b h = (Ok b, []).
Proof. intros Hr. destruct fuel; simpl; [|rewrite Hr]; reflexivity. Qed.

Lemma start_consuming_run (E : env) (fuel : nat) :
  forall (b : broker) (h : trace),
    Forall decodable (ready b) ->
    (List.length (ready b) <= fuel)%nat ->
    exists events,
      start_consuming E false fuel b h = (Ok (drained b), events)
      /\ http_calls events = flat_map url_of (ready b)
      /\ subprocess_calls events = flat_map commands_of (ready b)
      /\ acks events = tags_from (next_tag b) (List.length (ready b))
      /\ nacks events = []
      /\ deliveries events
         = List.combine (tags_from (next_tag b) (List.length (ready b))) (ready b)
      /\ amqp_calls events = [].
Proof.
  induction fuel as [|fuel IH]; intros b h Hdec Hlen.
  - assert (Hr : ready b = [])
      by (destruct (ready b); simpl in Hlen; [reflexivity|lia]).
    exists []. simpl. rewrite (drained_empty b Hr), Hr. repeat split.
  - destruct (ready b) as [|body rest] eqn:Hr.
    + exists []. rewrite (start_consuming_idle E _ b h Hr), (drained_empty b Hr).
      repeat split.
    + inversion Hdec as [|? ? Hbody Hrest]; subst.
      rewrite (start_consuming_step E fuel b h body rest Hr). cbv zeta.
      destruct (delivery_run E (next_tag b) body
                  (h ++ [EvDeliver (next_tag b) body]) Hbody)
        as (ev1 & Hcb & Hh1 & Hs1 & Ha1 & Hn1 & Hd1 & Hq1 & _).
      rewrite Hcb. unfold settle.
      rewrite (settlement_acked _ _ Ha1 Hn1), Hr. cbn [tl].
      match goal with
      | |- context [start_consuming E false fuel ?b' ?h'] =>
          destruct (IH b' h') as (ev2 & Hrun & Hh2 & Hs2 & Ha2 & Hn2 & Hd2 & Hq2);
          [exact Hrest | simpl in *; lia | rewrite Hrun]
      end.
      cbn [ready next_tag Datatypes.length tags_from List.combine flat_map]
        in *.
      eexists. split.
      * f_equal. f_equal. unfold drained. cbn. rewrite Hr. cbn.
        f_equal; [lia | now rewrite <- app_assoc].
      * change (?e :: ?t ++ ?u) with ([e] ++ t ++ u).
        autorewrite with observe.
        rewrite Hh1, Hs1, Ha1, Hn1, Hd1, Hq1, Hh2, Hs2, Ha2, Hn2, Hd2, Hq2.
        cbn. rewrite ?app_nil_r. repeat split; reflexivity.
Qed.

Lemma subscriptions_none (t : trace) : amqp_calls t = [] -> subscriptions t = [].
Proof.
  induction t as [|e t IH]; simpl; [reflexivity|].
  destruct e; simpl; try discriminate; auto.
Qed.

(** The loop keeps the acknowledgment discipline, whatever is on the queue
    and whatever the collaborators answer: it ends with no message in
    hand, or on a body that is not UTF-8, and then with
    [UnicodeDecodeError]. *)
Lemma start_consuming_discipline (E : env) (fuel : nat) :
  forall (b : broker) (h : trace),
    subscriptions (snd (start_consuming E false fuel b h)) = []
    /\ ((discipline Idle (snd (start_consuming E false fuel b h)) = Some Idle
         /\ exists b', fst (start_consuming E false fuel b h) = Ok b')
        \/ (discipline Idle (snd (start_consuming E false fuel b h))
            = Some Crashed
            /\ fst (start_consuming E false fuel b h)
               = Raise UnicodeDecodeError)).
Proof.
  induction fuel as [|fuel IH]; intros b h.
  { split; [reflexivity|]. left. split; [reflexivity|now exists b]. }
  destruct (ready b) as [|body rest] eqn:Hr.
  { rewrite (start_consuming_idle E _ b h Hr).
    split; [reflexivity|]. left. split; [reflexivity|now exists b]. }
  rewrite (start_consuming_step E fuel b h body rest Hr). cbv zeta.
  destruct (Utf8.decode body) as [text|] eqn:Hd.
  - destruct (delivery_run E (next_tag b) body
                (h ++ [EvDeliver (next_tag b) body]))
      as (ev1 & Hcb & _ & _ & Ha & Hn & Hdl & Hq & Howed);
      [unfold decodable; congruence|].
    rewrite Hcb.
    match goal with
    | |- context [start_consuming E false fuel ?b' ?h'] =>
        destruct (IH b' h') as [Hsub Hdis];
        destruct (start_consuming E false fuel b' h') as [r ev2]
    end.
    cbn [fst snd] in *. split.
    + change (subscriptions (?e :: ?t)) with (subscriptions t).
      rewrite !subscriptions_app, Hsub, (subscriptions_none ev1 Hq).
      reflexivity.
    + cbn [discipline discipline_step]. rewrite Howed.
      rewrite !discipline_app.
      rewrite <- (app_nil_r (actions ev1)).
      rewrite (discipline_pays (next_tag b) ev1 [] Ha Hn Hdl Hq).
      cbn [discipline discipline_step]. rewrite Z.eqb_refl. exact Hdis.
  - rewrite (callback_undecodable E _ body _ Hd). cbn [fst snd].
    split; [reflexivity|]. right.
    cbn [discipline discipline_step]. unfold owed. rewrite Hd.
    split; reflexivity.
Qed.

Lemma snd_bind {A B} (m : M A) (f : A -> M B) (h : trace) :
  snd (bind m f h)
  = match m h with
    | (Ok a, n1) => n1 ++ snd (f a (h ++ n1))
    | (Raise _, n1) => n1
    end.
Proof.
  unfold bind. destruct (m h) as [[a|e] n1]; [|reflexivity].
  destruct (f a (h ++ n1)); reflexivity.
Qed.

Lemma snd_bind_amqp {B} (E : env) (c : amqp_call) (k : unit -> M B)
    (h : trace) :
  snd (bind (call_amqp E c) k h)
  = match amqp E h c with
    | None => EvAmqp c None :: snd (k tt (h ++ [EvAmqp c None]))
    | Some e => [EvAmqp c (Some e)]
    end.
Proof.
  rewrite snd_bind. unfold call_amqp.
  destruct (amqp E h c); reflexivity.
Qed.

Lemma snd_bind_print {B} (l : log_line) (k : unit -> M B) (h : trace) :
  snd (bind (print l) k h) = EvPrint l :: snd (k tt (h ++ [EvPrint l])).
Proof. rewrite snd_bind. reflexivity. Qed.

(** * One delivery: what the callback decides *)

(** C1, as worded, fails: with HTTP answering 200 and the process exiting
    with 1 the table gives (Success, Transient) -> Transient, a requeue,
    and [callback] acknowledges the message. *)
Lemma C1_combination_policy_counterexample :
  ~ Stated.combination_policy Sample.node_fails 1 Sample.op7_s500.
Proof. unfold Stated.combination_policy. vm_compute. discriminate. Qed.

(** C1, amended: the consumer combines nothing.  Whatever the HTTP request
    and the process report, [process_message] returns normally and the
    message is settled as the table settles (Success, Success): it is
    acknowledged, never requeued and never dead-lettered. *)
Theorem C1_every_outcome_acknowledged (E : env) (tag : Z) (body : bytes)
    (text : str) (h : trace) :
  Utf8.decode body = Some text ->
  fst (process_message E text h) = Ok tt
  /\ settlement_of tag (snd (callback E tag body h)) = route Success.
Proof.
  intros Hd.
  destruct (process_message_run E text h)
    as (events & Hrun & _ & _ & Ha & Hn & _).
  rewrite (callback_run E tag body text h Hd), Hrun. cbn [fst snd route].
  split; [reflexivity|]. now apply settlement_acked.
Qed.

Lemma C1_every_outcome_acknowledged_witness :
  Utf8.decode Sample.op7_s500 = Some (lit "OP7,S500")
  /\ fst (process_message Sample.all_down (lit "OP7,S500") []) = Ok tt
  /\ settlement_of 1 (snd (callback Sample.all_down 1 Sample.op7_s500 []))
     = route Success.
Proof.
  split; [reflexivity|].
  apply (C1_every_outcome_acknowledged
           Sample.all_down 1 Sample.op7_s500 (lit "OP7,S500") []).
  reflexivity.
Defined.

(** C2, as worded, fails: the payload [OP7] has no delimiter, yet the HTTP
    request is made and the message is acknowledged, not dead-lettered. *)
Lemma C2_malformed_counterexample :
  ~ Stated.malformed_dead_lettered Sample.all_well 1 Sample.no_delimiter.
Proof.
  intros H.
  destruct (H (lit "OP7") eq_refl eq_refl) as [Hsettled _].
  vm_compute in Hsettled. discriminate.
Qed.

(** C2, amended: for a text payload whose trimmed form has no delimiter
    or more than one, the unpacking raises [ValueError], which is caught:
    the process is not run, but the HTTP request is made with the trimmed
    payload and the message is acknowledged.  A payload with exactly one
    delimiter is processed as an event, even when a field is empty. *)
Theorem C2_malformed_acknowledged (E : env) (tag : Z) (body : bytes)
    (text : str) (h : trace) :
  Utf8.decode body = Some text ->
  let events := snd (callback E tag body h) in
  http_calls events = [FLASK_URL_BASE ++ strip text]
  /\ settlement_of tag events = Acked
  /\ (count_char comma (strip text) <> 1%nat ->
      decode body = Raise ValueError /\ subprocess_calls events = [])
  /\ (count_char comma (strip text) = 1%nat ->
      exists area station,
        decode body = Ok (area, station)
        /\ subprocess_calls events = [node_cmd area]).
Proof.
  intros Hd events. subst events.
  destruct (process_message_run E text h)
    as (events & Hrun & Hh & Hs & Ha & Hn & _).
  rewrite (callback_run E tag body text h Hd), Hrun. cbn [snd].
  rewrite http_calls_app, subprocess_calls_app, Hh, Hs.
  unfold decode. rewrite Hd.
  pose proof (split_fields_spec (strip text)) as Hspec.
  pose proof (split_length comma (strip text)) as Hlen.
  unfold split_fields, unpack2 in *.
  split; [reflexivity|]. split; [now apply settlement_acked|].
  destruct (split comma (strip text)) as [|a [|b [|c l]]];
    simpl in Hlen; (split; intros Hc; [|try lia]); try lia;
    try (split; reflexivity).
  exists a, b. split; reflexivity.
Qed.

Lemma C2_malformed_acknowledged_witness :
  Utf8.decode Sample.no_delimiter = Some (lit "OP7")
  /\ decode Sample.no_delimiter = Raise ValueError
  /\ subprocess_calls (snd (callback Sample.all_well 1 Sample.no_delimiter []))
     = [].
Proof.
  split; [reflexivity|].
  apply (C2_malformed_acknowledged
           Sample.all_well 1 Sample.no_delimiter (lit "OP7") [] eq_refl).
  vm_compute. discriminate.
Defined.

(** C9: for a message that decodes to an event, the process is run once,
    as [node <script> --add --db <area>] with the area of the event; the
    command is the same for every station. *)
Theorem C9_process_arguments (E : env) (tag : Z) (body : bytes)
    (area station : str) (h : trace) :
  decode body = Ok (area, station) ->
  subprocess_calls (snd (callback E tag body h))
  = [[lit "node"; NODE_SCRIPT_PATH; lit "--add"; lit "--db"; area]]
  /\ forall E' tag' body' station' h',
       decode body' = Ok (area, station') ->
       subprocess_calls (snd (callback E' tag' body' h'))
       = subprocess_calls (snd (callback E tag body h)).
Proof.
  assert (Hone : forall E0 tag0 body0 station0 h0,
             decode body0 = Ok (area, station0) ->
             subprocess_calls (snd (callback E0 tag0 body0 h0))
             = [node_cmd area]).
  { intros E0 tag0 body0 station0 h0 Hdec.
    assert (Hbody : decodable body0).
    { unfold decodable, decode in *.
      destruct (Utf8.decode body0); [discriminate|discriminate Hdec]. }
    destruct (delivery_run E0 tag0 body0 h0 Hbody)
      as (events & Hcb & _ & Hs & _).
    rewrite Hcb. cbn [snd]. rewrite subprocess_calls_app, Hs.
    unfold commands_of. rewrite Hdec. reflexivity. }
  intros Hdec. split.
  - exact (Hone E tag body station h Hdec).
  - intros E' tag' body' station' h' Hdec'.
    rewrite (Hone E tag body station h Hdec).
    exact (Hone E' tag' body' station' h' Hdec').
Qed.

Lemma C9_process_arguments_witness :
  decode Sample.op7_s500 = Ok (lit "OP7", lit "S500")
  /\ subprocess_calls (snd (callback Sample.all_well 1 Sample.op7_s500 []))
     = [[lit "node"; NODE_SCRIPT_PATH; lit "--add"; lit "--db"; lit "OP7"]].
Proof.
  split; [reflexivity|].
  apply (C9_process_arguments
           Sample.all_well 1 Sample.op7_s500 (lit "OP7") (lit "S500") []).
  reflexivity.
Defined.

(** C10: a delivery whose body is UTF-8 text is acknowledged exactly once,
    as the last thing the callback does, whatever the HTTP request and the
    process return or raise: [process_message] catches both and returns
    normally. *)
Theorem C10_acknowledged_once (E : env) (tag : Z) (body : bytes)
    (text : str) (h : trace) :
  Utf8.decode body = Some text ->
  exists processing,
    process_message E text h = (Ok tt, processing)
    /\ callback E tag body h = (Ok tt, processing ++ [EvBasicAck tag])
    /\ acks processing = []
    /\ acks (snd (callback E tag body h)) = [tag]
    /\ nacks (snd (callback E tag body h)) = [].
Proof.
  intros Hd.
  destruct (process_message_run E text h)
    as (events & Hrun & _ & _ & Ha & Hn & _).
  exists events. rewrite (callback_run E tag body text h Hd), Hrun.
  cbn [snd]. rewrite acks_app, nacks_app, Ha, Hn. repeat split.
Qed.

Lemma C10_acknowledged_once_witness :
  Utf8.decode Sample.op7_s500 = Some (lit "OP7,S500")
  /\ acks (snd (callback Sample.all_down 7 Sample.op7_s500 [])) = [7].
Proof.
  split; [reflexivity|].
  destruct (C10_acknowledged_once
              Sample.all_down 7 Sample.op7_s500 (lit "OP7,S500") [] eq_refl)
    as (processing & _ & _ & _ & Hacks & _).
  exact Hacks.
Defined.

(** * The consuming loop *)

Lemma flat_map_repeat {A B} (f : A -> list B) (x : A) (y : B) (n : nat) :
  f x = [y] -> flat_map f (repeat x n) = repeat y n.
Proof. intros Hf. induction n; simpl; [reflexivity|]. now rewrite Hf, IHn. Qed.

Lemma decoded_text (body : bytes) (area station : str) :
  decode body = Ok (area, station) ->
  decodable body
  /\ url_of body = [FLASK_URL_BASE ++ wire area station]
  /\ commands_of body = [node_cmd area].
Proof.
  unfold decodable, url_of, commands_of, decode, wire.
  destruct (Utf8.decode body) as [text|]; [|discriminate].
  intros Hdec. pose proof (split_fields_spec (strip text)) as Hspec.
  rewrite Hdec in *. destruct Hspec as (-> & _).
  repeat split. discriminate.
Qed.

(** C3, as worded, fails: two deliveries of [OP7,S500] make two HTTP
    requests and run the process twice. *)
Lemma C3_idempotency_counterexample :
  ~ Stated.idempotent_redelivery Sample.all_well Sample.op7_s500.
Proof. vm_compute. intros [H _]. discriminate. Qed.

(** C3, amended: there is no idempotency guard.  Every delivery of an
    event makes one HTTP request and runs the process once, and is then
    acknowledged: [n] deliveries of the same event make [n] requests and
    [n] runs, two of each for two deliveries. *)
Theorem C3_every_delivery_executes (E : env) (body : bytes)
    (area station : str) (n : nat) :
  decode body = Ok (area, station) ->
  let events := consumed E n (repeat body n) in
  http_calls events = repeat (FLASK_URL_BASE ++ wire area station) n
  /\ subprocess_calls events = repeat (node_cmd area) n
  /\ acks events = tags_from 1 n.
Proof.
  intros Hdec events. subst events. unfold consumed.
  destruct (decoded_text body area station Hdec) as (Hbody & Hurl & Hcmd).
  destruct (start_consuming_run E n (fresh (repeat body n)) [])
    as (events & Hrun & Hh & Hs & Ha & _).
  - cbn [fresh ready]. apply Forall_forall.
    intros x Hx. apply repeat_spec in Hx. now subst.
  - cbn [fresh ready]. now rewrite repeat_length.
  - rewrite Hrun. cbn [snd fresh ready next_tag] in *.
    rewrite repeat_length in Ha.
    rewrite Hh, Hs, Ha, (flat_map_repeat _ _ _ n Hurl),
      (flat_map_repeat _ _ _ n Hcmd).
    repeat split.
Qed.

Lemma C3_every_delivery_executes_witness :
  decode Sample.op7_s500 = Ok (lit "OP7", lit "S500")
  /\ subprocess_calls
       (consumed Sample.all_well 2 [Sample.op7_s500; Sample.op7_s500])
     = [node_cmd (lit "OP7"); node_cmd (lit "OP7")].
Proof.
  split; [reflexivity|].
  apply (C3_every_delivery_executes
           Sample.all_well Sample.op7_s500 (lit "OP7") (lit "S500") 2).
  reflexivity.
Defined.

Lemma single_delivery (E : env) (body : bytes) (fuel : nat) :
  decodable body ->
  exists events,
    start_consuming E false (S fuel) (fresh [body]) []
    = (Ok (drained (fresh [body])), events)
    /\ nacks events = []
    /\ deliveries events = [(1, body)].
Proof.
  intros Hbody.
  destruct (start_consuming_run E (S fuel) (fresh [body]) [])
    as (events & Hrun & _ & _ & _ & Hn & Hd & _).
  - cbn [fresh ready]. now constructor.
  - cbn [fresh ready Datatypes.length]. lia.
  - exists events. now rewrite Hrun.
Qed.

(** C4, as worded, fails: with actions that fail transiently every time,
    [OP7,S500] is never dead-lettered, whatever the bound. *)
Lemma C4_retry_bound_counterexample :
  ~ Stated.bounded_retry Sample.all_down 5 Sample.op7_s500.
Proof.
  intros H. destruct H as (fuel & b & Hok & Hready & Hin & _).
  { split; intros; reflexivity. }
  destruct fuel as [|fuel].
  - simpl in Hok. injection Hok as <-. discriminate Hready.
  - destruct (single_delivery Sample.all_down Sample.op7_s500 fuel)
      as (events & Hrun & _); [discriminate|].
    rewrite Hrun in Hok. injection Hok as <-. exact Hin.
Qed.

(** C4, amended: a message is never requeued, so it is never redelivered,
    whatever the bound, and it is not dead-lettered either: whatever the
    actions return, and so also when they fail transiently every time, it
    is delivered once and acknowledged. *)
Theorem C4_never_requeued (E : env) (body : bytes) (fuel : nat) :
  decodable body ->
  (1 <= fuel)%nat ->
  exists b events,
    start_consuming E false fuel (fresh [body]) [] = (Ok b, events)
    /\ ready b = [] /\ acked b = [body]
    /\ dead_lettered b = [] /\ unacked b = []
    /\ deliveries events = [(1, body)]
    /\ nacks events = [].
Proof.
  intros Hbody Hfuel. destruct fuel as [|fuel]; [lia|].
  destruct (single_delivery E body fuel Hbody) as (events & Hrun & Hn & Hd).
  exists (drained (fresh [body])), events. rewrite Hrun.
  repeat split; assumption.
Qed.

Lemma C4_never_requeued_witness :
  decodable Sample.op7_s500 /\ (1 <= 6)%nat
  /\ exists b events,
       start_consuming Sample.all_down false 6 (fresh [Sample.op7_s500]) []
       = (Ok b, events)
       /\ ready b = [] /\ acked b = [Sample.op7_s500]
       /\ dead_lettered b = [] /\ unacked b = []
       /\ deliveries events = [(1, Sample.op7_s500)]
       /\ nacks events = [].
Proof.
  assert (Hbody : decodable Sample.op7_s500) by discriminate.
  assert (Hfuel : (1 <= 6)%nat) by lia.
  split; [exact Hbody|]. split; [exact Hfuel|].
  exact (C4_never_requeued Sample.all_down Sample.op7_s500 6 Hbody Hfuel).
Defined.

(** C5: the consumer subscribes with manual acknowledgment and
    acknowledges a message only once its actions are over.  On every run
    of [main], with any collaborators and any queue:
    - [main] subscribes to the queue with [auto_ack] false, unless one of
      the setup calls before the subscription raised, in which case it
      ends with that exception and no message is handled;
    - the trace obeys [discipline]: nothing is delivered before the
      subscription; a message is acknowledged by [basic_ack] with its own
      tag only after the HTTP request for it and, when its text unpacks
      into two fields, the run of the process have both returned or
      raised; no action of a message comes after its acknowledgment; and
      the next message is handed over only after that acknowledgment.
    The run ends with no message in hand, unless a body that is not UTF-8
    ended it with [UnicodeDecodeError], unacknowledged. *)
Theorem C5_manual_ack_after_actions (E : env) (fuel : nat) (b : broker)
    (h : trace) :
  let run := main E fuel b h in
  (subscriptions (snd run) = [(RABBITMQ_QUEUE, false)]
   \/ (exists c e,
         fst run = Raise e
         /\ In (c, Some e) (amqp_calls (snd run))
         /\ subscriptions (snd run) = []
         /\ deliveries (snd run) = [] /\ acks (snd run) = []))
  /\ ((discipline Setup (snd run) = Some Idle /\ exists b', fst run = Ok b')
      \/ (discipline Setup (snd run) = Some Crashed
          /\ fst run = Raise UnicodeDecodeError)
      \/ (discipline Setup (snd run) = Some Setup
          /\ exists e, fst run = Raise e)).
Proof.
  cbv beta iota zeta delta
    [main bind call_amqp print emit basic_consume_default_auto_ack].
  cbn [app].
  repeat match goal with
         | |- context [amqp E ?h' ?c] => destruct (amqp E h' c) as [?e|]
         end;
    cbn [fst snd];
    try (split;
         [ first [ left; reflexivity
                 | right; eexists; eexists;
                   split; [reflexivity|];
                   split; [cbn; auto 10|repeat split] ]
         | right; right; split; [reflexivity|eexists; reflexivity] ]).
  match goal with
  | |- context [start_consuming E false fuel b ?h'] =>
      destruct (start_consuming_discipline E fuel b h') as [Hsub Hdis];
      destruct (start_consuming E false fuel b h') as [r ev]
  end.
  cbn [fst snd app] in *. split.
  - left. cbn [subscriptions flat_map app]. unfold subscriptions in Hsub.
    now rewrite Hsub.
  - cbn [discipline discipline_step].
    destruct Hdis as [[Hd Hok]|[Hd Hraise]]; [left|right; left];
      split; assumption.
Qed.

(** A run of [main] on two messages, one of them without delimiter. *)
Example main_two_messages :
  let events :=
    snd (main Sample.all_down 5
           (fresh [Sample.op7_s500; Sample.no_delimiter]) []) in
  subscriptions events = [(RABBITMQ_QUEUE, false)]
  /\ discipline Setup events = Some Idle
  /\ acks events = [1; 2]
  /\ List.length (http_calls events) = 2%nat
  /\ List.length (subprocess_calls events) = 1%nat.
Proof. vm_compute. repeat split. Qed.

(** What [discipline] refuses, for the message [OP7,S500]: an
    acknowledgment before the process has run, an acknowledgment before
    the HTTP request, a run of the process put off until after the
    acknowledgment, a second delivery before the acknowledgment, a
    delivery without subscription, a subscription with [auto_ack], and an
    acknowledgment of a body that is not UTF-8. *)
Example discipline_rejects :
  let url := FLASK_URL_BASE ++ lit "OP7,S500" in
  let request := EvHttpGet url (HttpResponse 200) in
  let run := EvSubprocessRun (node_cmd (lit "OP7")) (Completed 0 [] []) in
  let deliver := EvDeliver 1 Sample.op7_s500 in
  discipline Idle [deliver; request; run; EvBasicAck 1] = Some Idle
  /\ discipline Idle [deliver; request; EvBasicAck 1] = None
  /\ discipline Idle [deliver; EvBasicAck 1; request; run] = None
  /\ discipline Idle [deliver; request; EvBasicAck 1; run] = None
  /\ discipline Idle [deliver; request; run; EvDeliver 2 Sample.op7_s500]
     = None
  /\ discipline Setup [deliver; request; run; EvBasicAck 1] = None
  /\ discipline Setup [EvAmqp (BasicConsume RABBITMQ_QUEUE true) None] = None
  /\ discipline Idle [EvDeliver 1 [255]; EvBasicAck 1] = None.
Proof. vm_compute. repeat split. Qed.

(** * The codec *)

(** C6, as worded, fails: [,S500] decodes to an event whose area is
    empty. *)
Lemma C6_decode_counterexample : ~ Stated.decode_total Sample.empty_area.
Proof. vm_compute. intros [H _]. now apply H. Qed.

(** C6, amended: on UTF-8 input the decoding is a total function.  It
    trims the surrounding whitespace and splits at every delimiter; when
    the trimmed text holds exactly one delimiter it returns the text
    before it and the text after it, either of which may be empty, and
    otherwise it raises [ValueError], the error that [process_message]
    catches. *)
Theorem C6_decode_of_text (body : bytes) (text : str) :
  Utf8.decode body = Some text ->
  match decode body with
  | Ok (area, station) =>
      strip text = area ++ comma :: station
      /\ ~ In comma area /\ ~ In comma station
      /\ count_char comma (strip text) = 1%nat
  | Raise e =>
      e = ValueError /\ count_char comma (strip text) <> 1%nat
  end.
Proof.
  intros Hd. unfold decode. rewrite Hd.
  pose proof (split_fields_spec (strip text)) as Hspec.
  pose proof (split_length comma (strip text)) as Hlen.
  unfold split_fields, unpack2 in *.
  destruct (split comma (strip text)) as [|a [|b [|c l]]];
    try exact Hspec.
  simpl in Hlen. destruct Hspec as (Hs & Ha & Hb).
  repeat split; try assumption. lia.
Qed.

Lemma C6_decode_of_text_witness :
  Utf8.decode Sample.empty_area = Some (lit ",S500")
  /\ match decode Sample.empty_area with
     | Ok (area, station) =>
         strip (lit ",S500") = area ++ comma :: station
         /\ ~ In comma area /\ ~ In comma station
         /\ count_char comma (strip (lit ",S500")) = 1%nat
     | Raise e =>
         e = ValueError /\ count_char comma (strip (lit ",S500")) <> 1%nat
     end.
Proof.
  split; [reflexivity|].
  apply (C6_decode_of_text Sample.empty_area (lit ",S500")).
  reflexivity.
Defined.

Lemma hd_wire (area station : str) :
  is_space (hd comma area) = false ->
  is_space (hd comma (wire area station)) = false.
Proof. unfold wire. destruct area; simpl; [reflexivity|trivial]. Qed.

Lemma last_wire (area station : str) :
  is_space (last station comma) = false ->
  is_space (last (wire area station) comma) = false.
Proof.
  unfold wire. intros H.
  induction area as [|a r IH]; cbn [app] in *.
  - destruct station; [reflexivity|exact H].
  - destruct (r ++ comma :: station) eqn:Hr; [now destruct r|exact IH].
Qed.

Lemma split_wire (area station : str) :
  ~ In comma area -> ~ In comma station ->
  split_fields (wire area station) = Ok (area, station).
Proof.
  intros Ha Hs. unfold split_fields, wire. cbn [app].
  now rewrite split_at_sep, split_without_sep.
Qed.

(** C7, as worded, fails: the area [ OP7], with a leading blank, comes
    back as [OP7]. *)
Lemma C7_round_trip_counterexample :
  ~ Stated.round_trip Sample.padded_area Sample.s500.
Proof.
  intros H. destruct H as (body & Henc & Hdec); try discriminate.
  - vm_compute. intuition discriminate.
  - vm_compute. intuition discriminate.
  - vm_compute in Henc. injection Henc as <-.
    vm_compute in Hdec. discriminate.
Qed.

(** C7, amended: the round trip holds for all A and B without delimiter
    that are made of Unicode scalar values (no lone surrogate), where A
    does not begin and B does not end with whitespace: the body that the
    producer publishes for ["A,B"] decodes to the event (A, B). *)
Theorem C7_round_trip (area station : str) :
  Forall (fun c => Utf8.is_scalar c = true) area ->
  Forall (fun c => Utf8.is_scalar c = true) station ->
  ~ In comma area -> ~ In comma station ->
  is_space (hd comma area) = false ->
  is_space (last station comma) = false ->
  exists body,
    Utf8.encode (wire area station) = Some body
    /\ decode body = Ok (area, station).
Proof.
  intros Hsa Hss Ha Hs Hhd Hlast.
  assert (Hscalar : Forall (fun c => Utf8.is_scalar c = true)
                      (wire area station)).
  { unfold wire. apply Forall_app. split; [exact Hsa|].
    constructor; [reflexivity|exact Hss]. }
  destruct (Utf8.encode (wire area station)) as [body|] eqn:Henc;
    [|now apply encode_scalars in Hscalar].
  exists body. split; [reflexivity|].
  unfold decode. rewrite (decode_encode _ _ Henc).
  rewrite strip_fixed by (now apply hd_wire || now apply last_wire).
  now apply split_wire.
Qed.

Lemma C7_round_trip_witness :
  exists body,
    Utf8.encode (wire (lit "OP7") (lit "S500")) = Some body
    /\ decode body = Ok (lit "OP7", lit "S500").
Proof.
  apply (C7_round_trip (lit "OP7") (lit "S500")).
  - repeat constructor.
  - repeat constructor.
  - vm_compute. intuition discriminate.
  - vm_compute. intuition discriminate.
  - reflexivity.
  - reflexivity.
Defined.

(** * The producer *)

Ltac run_producer :=
  cbv beta iota zeta delta
    [Producer.send_to_rabbitmq bind call_amqp of_option ret raise print emit
     fst snd];
  cbn [app].

(** C8, as worded, fails: when the first attempt to connect fails and a
    second one would succeed, [send_to_rabbitmq] still makes one attempt
    only. *)
Lemma C8_reconnect_counterexample :
  ~ Stated.one_reconnect Sample.flaky_broker (lit "OP7,S500").
Proof.
  intros H. vm_compute in H.
  specialize (H ltac:(discriminate)). discriminate.
Qed.

(** C8, amended: [send_to_rabbitmq] can be called again and again, each
    call opening a connection of its own, and it never reconnects: a call
    makes exactly one attempt to connect, and when that attempt raises,
    the exception reaches the caller at once, nothing else having been
    tried.  When no broker call raises, the call declares the queue,
    publishes the encoded text and closes its connection, whatever
    happened before. *)
Theorem C8_single_connection_attempt (E : env) (data : str) (h : trace) :
  let run := Producer.send_to_rabbitmq E data h in
  List.length (connects (snd run)) = 1%nat
  /\ (forall e,
        amqp E h (BlockingConnection Producer.RABBITMQ_HOST) = Some e ->
        run = (Raise e,
               [EvAmqp (BlockingConnection Producer.RABBITMQ_HOST) (Some e)]))
  /\ ((forall h' c, amqp E h' c = None) ->
      forall body,
        Utf8.encode data = Some body ->
        fst run = Ok tt
        /\ amqp_calls (snd run)
           = [(BlockingConnection Producer.RABBITMQ_HOST, None);
              (OpenChannel, None);
              (QueueDeclare Producer.RABBITMQ_QUEUE, None);
              (BasicPublish [] Producer.RABBITMQ_QUEUE body, None);
              (ConnectionClose, None)]).
Proof.
  intros run. subst run. split; [|split].
  - run_producer.
    repeat match goal with
           | |- context [amqp E ?h' ?c] => destruct (amqp E h' c)
           | |- context [Utf8.encode data] => destruct (Utf8.encode data)
           end; reflexivity.
  - intros e He. run_producer. rewrite He. reflexivity.
  - intros Hup body Henc. run_producer.
    rewrite !Hup, Henc. cbn [app]. rewrite !Hup. split; reflexivity.
Qed.

Lemma C8_single_connection_attempt_witness :
  amqp Sample.flaky_broker [] (BlockingConnection Producer.RABBITMQ_HOST)
  = Some (Exception "AMQPConnectionError")
  /\ Producer.send_to_rabbitmq Sample.flaky_broker (lit "OP7,S500") []
     = (Raise (Exception "AMQPConnectionError"),
        [EvAmqp (BlockingConnection Producer.RABBITMQ_HOST)
           (Some (Exception "AMQPConnectionError"))]).
Proof.
  split; [reflexivity|].
  apply (C8_single_connection_attempt Sample.flaky_broker (lit "OP7,S500") []).
  reflexivity.
Defined.

(** The producer loop over three scans, the second one empty: two
    messages are published, each on a connection of its own. *)
Example producer_main_three_scans :
  let events :=
    snd (Producer.main Sample.all_well [lit "OP7,S500"; []; lit "OP8,S100"] [])
  in
  published events = [lit "OP7,S500"; lit "OP8,S100"]
  /\ List.length (connects events) = 2%nat.
Proof. vm_compute. repeat split. Qed.

(** * More on the producer *)

Lemma printed_app (t1 t2 : trace) : printed (t1 ++ t2) = printed t1 ++ printed t2.
Proof. apply flat_map_app. Qed.

Lemma published_app (t1 t2 : trace) :
  published (t1 ++ t2) = published t1 ++ published t2.
Proof. apply flat_map_app. Qed.

(** The two ways a call of [send_to_rabbitmq] can end. *)
Lemma send_cases (E : env) (data : str) (h : trace) :
  let run := Producer.send_to_rabbitmq E data h in
  (exists body,
      Utf8.encode data = Some body
      /\ fst run = Ok tt
      /\ published (snd run) = [body]
      /\ printed (snd run) = [LogSent data]
      /\ connects (snd run) = [Producer.RABBITMQ_HOST]
      /\ In (ConnectionClose, None) (amqp_calls (snd run)))
  \/ (exists e,
         fst run = Raise e
         /\ prefix_of (published (snd run))
              (match Utf8.encode data with Some body => [body] | None => [] end)
         /\ printed (snd run) = []
         /\ connects (snd run) = [Producer.RABBITMQ_HOST]
         /\ ~ In (ConnectionClose, None) (amqp_calls (snd run))).
Proof.
  intros run. subst run. run_producer.
  repeat match goal with
         | |- context [amqp E ?h' ?c] => destruct (amqp E h' c) as [?e|]
         | |- context [Utf8.encode data] =>
             destruct (Utf8.encode data) as [body|]
         end;
    cbn [app fst snd];
    first
      [ left; eexists; repeat (split; [reflexivity|]);
        cbn; tauto
      | right; eexists; split; [reflexivity|];
        split; [first [exists []; reflexivity | eexists; reflexivity]|];
        repeat (split; [reflexivity|]);
        cbn; intuition congruence ].
Qed.

Lemma send_ok (E : env) (data : str) (body : bytes) (h : trace) :
  (forall h' c, amqp E h' c = None) ->
  Utf8.encode data = Some body ->
  Producer.send_to_rabbitmq E data h
  = (Ok tt,
     [EvAmqp (BlockingConnection Producer.RABBITMQ_HOST) None;
      EvAmqp OpenChannel None;
      EvAmqp (QueueDeclare Producer.RABBITMQ_QUEUE) None;
      EvAmqp (BasicPublish [] Producer.RABBITMQ_QUEUE body) None;
      EvAmqp ConnectionClose None;
      EvPrint (LogSent data)]).
Proof.
  intros Hup Henc. run_producer.
  rewrite !Hup, Henc. cbn [app]. rewrite !Hup. reflexivity.
Qed.

Lemma producer_main_cons (E : env) (c : Z) (s : str) (later : list str)
    (h : trace) :
  Producer.main E ((c :: s) :: later) h
  = match Producer.send_to_rabbitmq E (c :: s) h with
    | (Ok _, n1) =>
        let (r, n2) := Producer.main E later (h ++ n1) in (r, n1 ++ n2)
    | (Raise e, n1) => (Producer.Stopped e, n1)
    end.
Proof. reflexivity. Qed.

Lemma bodies_of_cons (c : Z) (s : str) (later : list str) :
  bodies_of ((c :: s) :: later)
  = match Utf8.encode (c :: s) with Some body => [body] | None => [] end
    ++ bodies_of later.
Proof. reflexivity. Qed.

(** X1: when the broker never fails and every scan can be encoded, no
    exception leaves the producer loop: after the scans it is still
    polling, having published the non-empty scans in scan order, one
    [Sent] line and one connection for each; empty scans leave no
    trace. *)
Theorem X1_producer_publishes_every_scan (E : env) (scans : list str)
    (h : trace) :
  (forall h' c, amqp E h' c = None) ->
  Forall (fun s => Utf8.encode s <> None) scans ->
  let run := Producer.main E scans h in
  fst run = Producer.Polling
  /\ published (snd run) = bodies_of scans
  /\ printed (snd run) = map LogSent (truthy scans)
  /\ List.length (connects (snd run)) = List.length (truthy scans).
Proof.
  intros Hup Hall. revert h.
  induction Hall as [|s later Hs _ IH]; intros h; [repeat split|].
  destruct s as [|c s]; [exact (IH h)|].
  cbv zeta in *. rewrite producer_main_cons.
  destruct (Utf8.encode (c :: s)) as [body|] eqn:Henc; [|contradiction].
  rewrite (send_ok E (c :: s) body h Hup Henc).
  match goal with
  | |- context [Producer.main E later ?h1] =>
      destruct (IH h1) as (Hok & Hpub & Hpr & Hconn);
      destruct (Producer.main E later h1) as [r n2]
  end.
  cbn [fst snd] in *. rewrite bodies_of_cons, Henc.
  change (truthy ((c :: s) :: later)) with ((c :: s) :: truthy later).
  cbn [published printed connects flat_map app map Datatypes.length].
  fold (published n2) (printed n2) (connects n2).
  rewrite Hpub, Hpr, Hconn. repeat split; assumption.
Qed.

Lemma X1_producer_publishes_every_scan_witness :
  published
    (snd (Producer.main Sample.all_well [lit "OP7,S500"; []; lit "OP8,S1"] []))
  = bodies_of [lit "OP7,S500"; []; lit "OP8,S1"].
Proof.
  apply (X1_producer_publishes_every_scan
           Sample.all_well [lit "OP7,S500"; []; lit "OP8,S1"] []).
  - reflexivity.
  - repeat constructor; discriminate.
Defined.

Lemma prefix_of_app {A} (p q m : list A) :
  prefix_of q m -> prefix_of (p ++ q) (p ++ m).
Proof. intros [rest ->]. exists rest. now rewrite app_assoc. Qed.

Lemma prefix_of_weaken {A} (p l m : list A) :
  prefix_of p l -> prefix_of p (l ++ m).
Proof. intros [rest ->]. exists (rest ++ m). now rewrite app_assoc. Qed.

(** X2: whatever the broker does, the bodies published by the producer
    loop are an initial part of the bodies of the non-empty scans, in scan
    order: no scan is published twice or out of order, and nothing is
    published after the first call that raises.  The [Sent] lines are an
    initial part of the scans in the same way, and there are never more of
    them than bodies published. *)
Theorem X2_producer_publishes_in_order (E : env) (scans : list str)
    (h : trace) :
  let events := snd (Producer.main E scans h) in
  prefix_of (published events) (bodies_of scans)
  /\ prefix_of (printed events) (map LogSent (truthy scans))
  /\ (List.length (printed events) <= List.length (published events))%nat.
Proof.
  revert h. induction scans as [|s later IH]; intros h.
  { repeat split; try (exists []; reflexivity). cbn. lia. }
  destruct s as [|c s]; [exact (IH h)|].
  cbv zeta in *. rewrite producer_main_cons, bodies_of_cons.
  change (truthy ((c :: s) :: later)) with ((c :: s) :: truthy later).
  destruct (send_cases E (c :: s) h)
    as [(body & Henc & Hok & Hpub & Hpr & _)
       |(e & Hraise & Hpub & Hpr & _)];
    destruct (Producer.send_to_rabbitmq E (c :: s) h) as [[u|e'] n1];
    cbn [fst snd] in *; try discriminate.
  - match goal with
    | |- context [Producer.main E later ?h1] =>
        destruct (IH h1) as (Hp2 & Hs2 & Hle);
        destruct (Producer.main E later h1) as [r n2]
    end.
    cbn [snd] in *. rewrite published_app, printed_app, Hpub, Hpr, Henc.
    cbn [map]. repeat split.
    + now apply (prefix_of_app [body]).
    + now apply (prefix_of_app [LogSent (c :: s)]).
    + rewrite !length_app. cbn. lia.
  - rewrite Hpr. repeat split.
    + now apply prefix_of_weaken.
    + eexists. reflexivity.
    + cbn. lia.
Qed.

(** X3: [send_to_rabbitmq] prints its [Sent] line exactly when it returns
    normally, and then the body has been published and the connection
    closed.  When it raises, it prints nothing and no connection has been
    closed: the close is the last broker call and is never reached after a
    failure. *)
Theorem X3_sent_line_means_published (E : env) (data : str) (h : trace) :
  let run := Producer.send_to_rabbitmq E data h in
  (fst run = Ok tt <-> printed (snd run) = [LogSent data])
  /\ (fst run = Ok tt ->
      exists body,
        Utf8.encode data = Some body
        /\ published (snd run) = [body]
        /\ In (ConnectionClose, None) (amqp_calls (snd run)))
  /\ (fst run <> Ok tt ->
      printed (snd run) = []
      /\ ~ In (ConnectionClose, None) (amqp_calls (snd run))).
Proof.
  cbv zeta.
  destruct (send_cases E data h)
    as [(body & Henc & Hok & Hpub & Hpr & _ & Hclose)
       |(e & Hraise & _ & Hpr & _ & Hclose)].
  - rewrite Hok, Hpr. repeat split; try congruence.
    intros _. exists body. repeat split; assumption.
  - rewrite Hraise, Hpr. repeat split; try discriminate; try assumption.
Qed.

Lemma X3_sent_line_means_published_witness :
  fst (Producer.send_to_rabbitmq Sample.all_well (lit "OP7,S500") []) = Ok tt
  /\ exists body,
       Utf8.encode (lit "OP7,S500") = Some body
       /\ published
            (snd (Producer.send_to_rabbitmq Sample.all_well (lit "OP7,S500") []))
          = [body]
       /\ In (ConnectionClose, None)
            (amqp_calls
               (snd (Producer.send_to_rabbitmq Sample.all_well
                       (lit "OP7,S500") []))).
Proof.
  assert (Hok : fst (Producer.send_to_rabbitmq Sample.all_well
                       (lit "OP7,S500") []) = Ok tt) by reflexivity.
  split; [exact Hok|].
  apply (X3_sent_line_means_published Sample.all_well (lit "OP7,S500") []).
  exact Hok.
Defined.

(** * More on the consumer *)

Ltac observe_events :=
  rewrite ?http_calls_app, ?subprocess_calls_app, ?acks_app, ?nacks_app,
    ?deliveries_app, ?amqp_calls_app.

(** X4: a body that is not UTF-8 stops the consumer.  The callback raises
    [UnicodeDecodeError] before it prints, requests or runs anything, the
    loop ends with that exception, the message is not acknowledged, and
    the messages behind it are not delivered; the messages before it have
    been handled and acknowledged in order. *)
Theorem X4_undecodable_body_stops_the_loop (E : env) (before : list bytes) :
  forall (bad : bytes) (behind : list bytes) (fuel : nat) (b : broker)
         (h : trace),
    ready b = before ++ bad :: behind ->
    Forall decodable before ->
    Utf8.decode bad = None ->
    (List.length before < fuel)%nat ->
    exists events,
      start_consuming E false fuel b h = (Raise UnicodeDecodeError, events)
      /\ deliveries events
         = List.combine (tags_from (next_tag b) (S (List.length before)))
             (before ++ [bad])
      /\ acks events = tags_from (next_tag b) (List.length before)
      /\ http_calls events = flat_map url_of before
      /\ subprocess_calls events = flat_map commands_of before.
Proof.
  induction before as [|m before IH];
    intros bad behind fuel b h Hr Hdec Hbad Hfuel;
    (destruct fuel as [|fuel]; [simpl in Hfuel; lia|]);
    cbn [app] in Hr;
    rewrite (start_consuming_step E fuel b h _ _ Hr); cbv zeta.
  - rewrite (callback_undecodable E _ bad _ Hbad).
    eexists. repeat split.
  - inversion Hdec as [|? ? Hm Hrest]; subst.
    destruct (delivery_run E (next_tag b) m
                (h ++ [EvDeliver (next_tag b) m]) Hm)
      as (ev1 & Hcb & Hh1 & Hs1 & Ha1 & Hn1 & Hd1 & _).
    rewrite Hcb. unfold settle.
    rewrite (settlement_acked _ _ Ha1 Hn1), Hr. cbn [tl].
    match goal with
    | |- context [start_consuming E false fuel ?b' ?h'] =>
        destruct (IH bad behind fuel b' h')
          as (ev2 & Hrun & Hd2 & Ha2 & Hh2 & Hs2);
        [reflexivity | exact Hrest | exact Hbad | simpl in Hfuel; lia
        | rewrite Hrun]
    end.
    cbn [next_tag] in *.
    eexists. split; [reflexivity|].
    change (?e :: ?t ++ ?u) with ([e] ++ t ++ u).
    observe_events.
    rewrite Hh1, Hs1, Ha1, Hd1, Hh2, Hs2, Ha2, Hd2.
    cbn. rewrite ?app_nil_r. repeat split; reflexivity.
Qed.

Lemma X4_undecodable_body_stops_the_loop_witness :
  exists events,
    start_consuming Sample.all_well false 5
      (fresh [Sample.op7_s500; [255]; Sample.op7_s500]) []
    = (Raise UnicodeDecodeError, events)
    /\ deliveries events = [(1, Sample.op7_s500); (2, [255])]
    /\ acks events = [1].
Proof.
  destruct (X4_undecodable_body_stops_the_loop Sample.all_well
              [Sample.op7_s500] [255] [Sample.op7_s500] 5
              (fresh [Sample.op7_s500; [255]; Sample.op7_s500]) [])
    as (events & Hrun & Hd & Ha & _).
  - reflexivity.
  - repeat constructor. discriminate.
  - reflexivity.
  - cbn. lia.
  - exists events. repeat split; assumption.
Defined.

(** The loop makes no call on the connection. *)
Lemma start_consuming_no_amqp (E : env) (fuel : nat) :
  forall (b : broker) (h : trace),
    amqp_calls (snd (start_consuming E false fuel b h)) = [].
Proof.
  induction fuel as [|fuel IH]; intros b h; [reflexivity|].
  destruct (ready b) as [|body rest] eqn:Hr.
  { now rewrite (start_consuming_idle E _ b h Hr). }
  rewrite (start_consuming_step E fuel b h body rest Hr). cbv zeta.
  destruct (Utf8.decode body) as [text|] eqn:Hd.
  - destruct (delivery_run E (next_tag b) body
                (h ++ [EvDeliver (next_tag b) body]))
      as (ev1 & Hcb & _ & _ & _ & _ & _ & Hq & _);
      [unfold decodable; congruence|].
    rewrite Hcb.
    match goal with
    | |- context [start_consuming E false fuel ?b' ?h'] =>
        pose proof (IH b' h') as Hq2;
        destruct (start_consuming E false fuel b' h') as [r ev2]
    end.
    cbn [snd] in *.
    change (?e :: ?t ++ ?u) with ([e] ++ t ++ u).
    observe_events. now rewrite Hq, Hq2.
  - now rewrite (callback_undecodable E _ body _ Hd).
Qed.

(** The two ways [main] can go: a setup call raises, or the loop runs
    after the four setup calls. *)
Lemma main_cases (E : env) (fuel : nat) (b : broker) (h : trace) :
  (exists e setup,
      main E fuel b h = (Raise e, setup)
      /\ deliveries setup = [] /\ acks setup = [] /\ http_calls setup = []
      /\ subprocess_calls setup = [])
  \/ (exists h1 setup,
         main E fuel b h
         = (fst (start_consuming E false fuel b h1),
            setup ++ snd (start_consuming E false fuel b h1))
         /\ h1 = h ++ setup
         /\ setup
            = [EvAmqp (BlockingConnection RABBITMQ_HOST) None;
               EvAmqp OpenChannel None;
               EvAmqp (QueueDeclare RABBITMQ_QUEUE) None;
               EvPrint LogWaiting;
               EvAmqp (BasicConsume RABBITMQ_QUEUE false) None]).
Proof.
  cbv beta iota zeta delta
    [main bind call_amqp print emit basic_consume_default_auto_ack].
  cbn [app].
  repeat match goal with
         | |- context [amqp E ?h' ?c] => destruct (amqp E h' c) as [?e|]
         end;
    try (left; eexists; eexists; repeat split; reflexivity).
  right. eexists. eexists. split; [|split; reflexivity].
  rewrite <- !app_assoc. cbn [app].
  destruct (start_consuming E false fuel b _); reflexivity.
Qed.

(** X5: the consumer handles no message unless its whole setup went
    through.  If a message has been delivered to the callback, then
    [main] made exactly four calls on the connection before, all
    successful: connect, open the channel, declare the queue, subscribe
    without [auto_ack]; and it made no other call since. *)
Theorem X5_no_delivery_without_setup (E : env) (fuel : nat) (b : broker)
    (h : trace) :
  deliveries (snd (main E fuel b h)) <> [] ->
  amqp_calls (snd (main E fuel b h))
  = [(BlockingConnection RABBITMQ_HOST, None);
     (OpenChannel, None);
     (QueueDeclare RABBITMQ_QUEUE, None);
     (BasicConsume RABBITMQ_QUEUE false, None)].
Proof.
  destruct (main_cases E fuel b h)
    as [(e & setup & -> & Hd & _)|(h1 & setup & -> & _ & ->)];
    cbn [snd]; [congruence|].
  intros _. rewrite amqp_calls_app, start_consuming_no_amqp. reflexivity.
Qed.

Lemma X5_no_delivery_without_setup_witness :
  amqp_calls (snd (main Sample.all_down 3 (fresh [Sample.op7_s500]) []))
  = [(BlockingConnection RABBITMQ_HOST, None);
     (OpenChannel, None);
     (QueueDeclare RABBITMQ_QUEUE, None);
     (BasicConsume RABBITMQ_QUEUE false, None)].
Proof.
  apply (X5_no_delivery_without_setup
           Sample.all_down 3 (fresh [Sample.op7_s500]) []).
  vm_compute. discriminate.
Defined.

(** X6: when the setup calls succeed and every message on the queue is
    UTF-8 text, [main] handles the whole queue in queue order: message
    number [i] is delivered with tag [next_tag + i], one HTTP request is
    made for it, the process is run for it if its trimmed text has exactly
    one delimiter, and it is acknowledged with its own tag; the queue ends
    empty with every message acknowledged and none rejected. *)
Theorem X6_queue_handled_in_order (E : env) (fuel : nat) (b : broker)
    (h : trace) :
  (forall h' c, amqp E h' c = None) ->
  Forall decodable (ready b) ->
  (List.length (ready b) <= fuel)%nat ->
  let run := main E fuel b h in
  let tags := tags_from (next_tag b) (List.length (ready b)) in
  fst run = Ok (drained b)
  /\ deliveries (snd run) = List.combine tags (ready b)
  /\ acks (snd run) = tags
  /\ nacks (snd run) = []
  /\ http_calls (snd run) = flat_map url_of (ready b)
  /\ subprocess_calls (snd run) = flat_map commands_of (ready b).
Proof.
  intros Hup Hdec Hfuel.
  cbv beta iota zeta delta
    [main bind call_amqp print emit basic_consume_default_auto_ack].
  cbn [app]. rewrite !Hup.
  match goal with
  | |- context [start_consuming E false fuel b ?h1] =>
      destruct (start_consuming_run E fuel b h1 Hdec Hfuel)
        as (ev & Hrun & Hh & Hs & Ha & Hn & Hd & _)
  end.
  rewrite Hrun. cbn [fst snd app].
  repeat split; assumption.
Qed.

Lemma X6_queue_handled_in_order_witness :
  acks (snd (main Sample.all_down 4
               (fresh [Sample.op7_s500; Sample.no_delimiter;
                       Sample.empty_area]) []))
  = [1; 2; 3].
Proof.
  apply (X6_queue_handled_in_order Sample.all_down 4
           (fresh [Sample.op7_s500; Sample.no_delimiter; Sample.empty_area])
           []).
  - reflexivity.
  - repeat constructor; discriminate.
  - cbn. lia.
Defined.

(** X7: the exit code of the process is ignored.  With collaborators that
    answer alike except for the exit code of the process, the callback
    returns the same result, prints the same lines, makes the same HTTP
    request, runs the same command and acknowledges alike. *)
Theorem X7_exit_code_ignored (E1 E2 : env) (tag : Z) (body : bytes)
    (h : trace) :
  (forall h' url, requests_get E1 h' url = requests_get E2 h' url) ->
  (forall h' cmd,
     same_but_exit_code (subprocess_run E1 h' cmd) (subprocess_run E2 h' cmd)) ->
  fst (callback E1 tag body h) = fst (callback E2 tag body h)
  /\ printed (snd (callback E1 tag body h))
     = printed (snd (callback E2 tag body h))
  /\ http_calls (snd (callback E1 tag body h))
     = http_calls (snd (callback E2 tag body h))
  /\ subprocess_calls (snd (callback E1 tag body h))
     = subprocess_calls (snd (callback E2 tag body h))
  /\ acks (snd (callback E1 tag body h)) = acks (snd (callback E2 tag body h)).
Proof.
  intros Hhttp Hproc. unfold callback, of_option.
  destruct (Utf8.decode body) as [text|]; [|repeat split].
  run_script. rewrite !Hhttp.
  destruct (requests_get E2 _ _) as [code|e1];
    (destruct (split_fields (strip text)) as [[a s]|e2]; [|repeat split]);
    match goal with
    | |- context [subprocess_run E1 ?h1 ?cmd] =>
        specialize (Hproc h1 cmd);
        destruct (subprocess_run E1 h1 cmd) as [rc1 o1 s1|x1];
        destruct (subprocess_run E2 h1 cmd) as [rc2 o2 s2|x2];
        simpl in Hproc; try contradiction;
        [destruct Hproc as [-> ->]; destruct s2 | subst];
        repeat split
    end.
Qed.

Lemma X7_exit_code_ignored_witness :
  printed (snd (callback Sample.all_well 1 Sample.op7_s500 []))
  = printed (snd (callback Sample.node_fails 1 Sample.op7_s500 [])).
Proof.
  apply (X7_exit_code_ignored Sample.all_well Sample.node_fails
           1 Sample.op7_s500 []).
  - reflexivity.
  - intros h' cmd. cbn. split; reflexivity.
Defined.

(** * More on the text of a message *)

Lemma lstrip_head (s : str) : is_space (hd comma (lstrip s)) = false.
Proof.
  induction s as [|c r IH]; simpl; [reflexivity|].
  destruct (is_space c) eqn:Hc; [exact IH|exact Hc].
Qed.

Lemma last_rev (s : str) : last (rev s) comma = hd comma s.
Proof. destruct s as [|c r]; simpl; [reflexivity|apply last_last]. Qed.

Lemma rstrip_last (s : str) : is_space (last (rstrip s) comma) = false.
Proof. unfold rstrip. rewrite last_rev. apply lstrip_head. Qed.

Lemma lstrip_snoc (l : str) (c : Z) :
  is_space c = false -> exists l', lstrip (l ++ [c]) = l' ++ [c].
Proof.
  intros Hc. induction l as [|a l IH]; simpl.
  - rewrite Hc. now exists [].
  - destruct (is_space a); [exact IH|]. now exists (a :: l).
Qed.

Lemma rstrip_head (s : str) :
  is_space (hd comma s) = false -> is_space (hd comma (rstrip s)) = false.
Proof.
  destruct s as [|c r]; [reflexivity|]. simpl. intros Hc.
  unfold rstrip. simpl.
  destruct (lstrip_snoc (rev r) c Hc) as [l' ->].
  rewrite rev_app_distr. exact Hc.
Qed.

Lemma strip_head (s : str) : is_space (hd comma (strip s)) = false.
Proof. unfold strip. apply rstrip_head, lstrip_head. Qed.

Lemma strip_last (s : str) : is_space (last (strip s) comma) = false.
Proof. unfold strip. apply rstrip_last. Qed.

Lemma strip_idempotent (s : str) : strip (strip s) = strip s.
Proof. apply strip_fixed; [apply strip_head|apply strip_last]. Qed.

Lemma lstrip_incl (s : str) : incl (lstrip s) s.
Proof.
  induction s as [|c r IH]; simpl; [apply incl_refl|].
  destruct (is_space c); [now apply incl_tl|apply incl_refl].
Qed.

Lemma strip_incl (s : str) : incl (strip s) s.
Proof.
  unfold strip, rstrip. intros x Hx.
  apply lstrip_incl. apply in_rev in Hx. apply lstrip_incl in Hx.
  now apply in_rev in Hx.
Qed.

(** X8: surrounding whitespace in a message changes nothing but the
    [Received] line: the text and its trimmed form lead to the same HTTP
    request and to the same process command. *)
Theorem X8_surrounding_whitespace_ignored (E E' : env) (text : str)
    (h h' : trace) :
  http_calls (snd (process_message E text h))
  = http_calls (snd (process_message E' (strip text) h'))
  /\ subprocess_calls (snd (process_message E text h))
     = subprocess_calls (snd (process_message E' (strip text) h')).
Proof.
  destruct (process_message_run E text h) as (ev1 & Hr1 & Hh1 & Hs1 & _).
  destruct (process_message_run E' (strip text) h')
    as (ev2 & Hr2 & Hh2 & Hs2 & _).
  rewrite Hr1, Hr2. cbn [snd].
  rewrite Hh1, Hs1, Hh2, Hs2, strip_idempotent. split; reflexivity.
Qed.

(** * What the decoder yields *)

Ltac reflect_tests :=
  unfold Utf8.is_cont, between in *;
  repeat match goal with
         | H : _ && _ = true |- _ => apply andb_true_iff in H; destruct H
         | H : (_ <=? _) = true |- _ => apply Z.leb_le in H
         | H : (_ <=? _) = false |- _ => apply Z.leb_gt in H
         end.

Lemma scalar_intro (c : Z) :
  0 <= c <= 0xD7FF \/ 0xE000 <= c <= 0x10FFFF -> Utf8.is_scalar c = true.
Proof. unfold Utf8.is_scalar, between. lia. Qed.

(** Strict decoding yields scalar values only. *)
Lemma decode_scalars_bounded (n : nat) :
  forall (b : bytes) (s : str),
    (List.length b <= n)%nat ->
    Utf8.decode b = Some s ->
    Forall (fun c => Utf8.is_scalar c = true) s.
Proof.
  induction n as [|n IH]; intros b s Hlen Hdec.
  { destruct b; [|simpl in Hlen; lia]. injection Hdec as <-. constructor. }
  destruct b as [|b0 r0]; [injection Hdec as <-; constructor|].
  rewrite decode_cons in Hdec. simpl in Hlen.
  destruct (between 0 127 b0) eqn:T1.
  { destruct (Utf8.decode r0) as [s0|] eqn:Hr; [|discriminate].
    injection Hdec as <-. constructor.
    - apply scalar_intro. reflect_tests. lia.
    - apply (IH r0); [lia|exact Hr]. }
  destruct (between 194 223 b0) eqn:T2.
  { destruct r0 as [|b1 r1]; [discriminate|].
    destruct (Utf8.is_cont b1) eqn:C1; [|discriminate].
    destruct (Utf8.decode r1) as [s1|] eqn:Hr; [|discriminate].
    injection Hdec as <-. simpl in Hlen. constructor.
    - apply scalar_intro. reflect_tests. lia.
    - apply (IH r1); [lia|exact Hr]. }
  destruct (between 224 239 b0) eqn:T3.
  { destruct r0 as [|b1 [|b2 r2]]; try discriminate.
    match type of Hdec with (if ?t then _ else _) = _ =>
      destruct t eqn:C1; [|discriminate] end.
    destruct (Utf8.decode r2) as [s2|] eqn:Hr; [|discriminate].
    injection Hdec as <-. simpl in Hlen. constructor.
    - apply scalar_intro.
      destruct (Z.eqb_spec b0 224); destruct (Z.eqb_spec b0 237);
        reflect_tests; lia.
    - apply (IH r2); [lia|exact Hr]. }
  destruct (between 240 244 b0) eqn:T4; [|discriminate].
  destruct r0 as [|b1 [|b2 [|b3 r3]]]; try discriminate.
  match type of Hdec with (if ?t then _ else _) = _ =>
    destruct t eqn:C1; [|discriminate] end.
  destruct (Utf8.decode r3) as [s3|] eqn:Hr; [|discriminate].
  injection Hdec as <-. simpl in Hlen. constructor.
  - apply scalar_intro.
    destruct (Z.eqb_spec b0 240); destruct (Z.eqb_spec b0 244);
      reflect_tests; lia.
  - apply (IH r3); [lia|exact Hr].
Qed.

Lemma decode_scalars (b : bytes) (s : str) :
  Utf8.decode b = Some s -> Forall (fun c => Utf8.is_scalar c = true) s.
Proof. apply (decode_scalars_bounded (List.length b)). lia. Qed.

Lemma last_app_cons (a : str) (c : Z) (s : str) (d : Z) :
  last (a ++ c :: s) d = last (c :: s) d.
Proof.
  induction a as [|x a IH]; [reflexivity|].
  cbn [app]. rewrite <- IH. simpl. now destruct (a ++ c :: s) eqn:Hn; [destruct a|].
Qed.

(** X9: every event the consumer decodes is in canonical form: neither
    field holds a delimiter, the area has no whitespace in front and the
    station none behind, and the text [area,station], published again,
    decodes to the same event. *)
Theorem X9_decoded_event_is_canonical (body : bytes) (area station : str) :
  decode body = Ok (area, station) ->
  ~ In comma area /\ ~ In comma station
  /\ lstrip area = area /\ rstrip station = station
  /\ exists body',
       Utf8.encode (wire area station) = Some body'
       /\ decode body' = Ok (area, station).
Proof.
  unfold decode.
  destruct (Utf8.decode body) as [text|] eqn:Hd; [|discriminate].
  intros Hdec. pose proof (split_fields_spec (strip text)) as Hspec.
  rewrite Hdec in Hspec. destruct Hspec as (Hs & Ha & Hb).
  pose proof (strip_head text) as Hhead.
  pose proof (strip_last text) as Hlast.
  rewrite Hs in Hhead, Hlast. rewrite last_app_cons in Hlast.
  assert (Harea : is_space (hd comma area) = false)
    by (destruct area; [reflexivity|exact Hhead]).
  assert (Hstation : is_space (last station comma) = false)
    by (destruct station; [reflexivity|exact Hlast]).
  assert (Hscalar : Forall (fun c => Utf8.is_scalar c = true)
                      (wire area station)).
  { unfold wire. cbn [app]. rewrite <- Hs. apply Forall_forall.
    intros c Hc. apply strip_incl in Hc.
    pose proof (decode_scalars body text Hd) as Hall.
    rewrite Forall_forall in Hall. now apply Hall. }
  repeat (split; [assumption || now apply lstrip_fixed
                  || now apply rstrip_fixed|]).
  destruct (Utf8.encode (wire area station)) as [body'|] eqn:Henc;
    [|now apply encode_scalars in Hscalar].
  exists body'. split; [reflexivity|].
  rewrite (decode_encode _ _ Henc).
  rewrite strip_fixed by (now apply hd_wire || now apply last_wire).
  now apply split_wire.
Qed.

Lemma X9_decoded_event_is_canonical_witness :
  lstrip (lit "OP7") = lit "OP7" /\ rstrip (lit "S500") = lit "S500".
Proof.
  destruct (X9_decoded_event_is_canonical
              (lit "  OP7,S500 ") (lit "OP7") (lit "S500") eq_refl)
    as (_ & _ & Hl & Hr & _).
  split; assumption.
Defined.

(** * From the producer to the consumer *)

Lemma process_message_first_line (E : env) (text : str) (h : trace) :
  hd_error (printed (snd (process_message E text h)))
  = Some (LogReceived text).
Proof.
  run_script.
  destruct (requests_get E _ _) as [code|e1];
    (destruct (split_fields (strip text)) as [[op_area station]|e2];
     [destruct (subprocess_run E _ _) as [rc out [|c err]|e3]|]);
    reflexivity.
Qed.

(** X10: what the producer sends is what the consumer receives.  When
    [send_to_rabbitmq] returns normally it has published one body, and
    the callback, given that body, decodes it to the text that was sent:
    it prints the [Received] line for it, requests the URL made of the
    trimmed text, and acknowledges the delivery. *)
Theorem X10_published_text_is_received (E : env) (data : str) (h : trace) :
  fst (Producer.send_to_rabbitmq E data h) = Ok tt ->
  exists body,
    published (snd (Producer.send_to_rabbitmq E data h)) = [body]
    /\ forall E' tag h',
         fst (callback E' tag body h') = Ok tt
         /\ hd_error (printed (snd (callback E' tag body h')))
            = Some (LogReceived data)
         /\ http_calls (snd (callback E' tag body h'))
            = [FLASK_URL_BASE ++ strip data]
         /\ acks (snd (callback E' tag body h')) = [tag].
Proof.
  intros Hok.
  destruct (send_cases E data h)
    as [(body & Henc & _ & Hpub & _)|(e & Hraise & _)]; [|congruence].
  exists body. split; [exact Hpub|]. intros E' tag h'.
  apply decode_encode in Henc.
  pose proof (process_message_first_line E' data h') as Hfirst.
  destruct (process_message_run E' data h')
    as (events & Hrun & Hh & _ & Ha & _).
  rewrite (callback_run E' tag body data h' Henc), Hrun in *.
  cbn [fst snd] in *. rewrite printed_app, http_calls_app, acks_app, Hh, Ha.
  repeat split.
  destruct (printed events); [discriminate Hfirst|exact Hfirst].
Qed.

Lemma X10_published_text_is_received_witness :
  exists body,
    published
      (snd (Producer.send_to_rabbitmq Sample.all_well (lit " OP7,S500") []))
    = [body]
    /\ forall E' tag h',
         fst (callback E' tag body h') = Ok tt
         /\ hd_error (printed (snd (callback E' tag body h')))
            = Some (LogReceived (lit " OP7,S500"))
         /\ http_calls (snd (callback E' tag body h'))
            = [FLASK_URL_BASE ++ strip (lit " OP7,S500")]
         /\ acks (snd (callback E' tag body h')) = [tag].
Proof.
  apply (X10_published_text_is_received Sample.all_well (lit " OP7,S500") []).
  reflexivity.
Defined.

(** * Order and logging in [process_message] *)

(** X11: the HTTP request always comes first and the process second.  The
    request is made for every text message; the process is run after it,
    whatever the request returned or raised, when the trimmed text has
    exactly one delimiter, and not at all otherwise. *)
Theorem X11_request_then_process (E : env) (tag : Z) (body : bytes)
    (text : str) (h : trace) :
  Utf8.decode body = Some text ->
  actions (snd (callback E tag body h))
  = Request (FLASK_URL_BASE ++ strip text) :: map Run (commands_of body).
Proof.
  intros Hd. unfold commands_of, decode, callback, of_option.
  rewrite Hd. run_script.
  destruct (requests_get E _ _) as [code|e1];
    (destruct (split_fields (strip text)) as [[op_area station]|e2];
     [destruct (subprocess_run E _ _) as [rc out [|c err]|e3]|]);
    reflexivity.
Qed.

Lemma X11_request_then_process_witness :
  actions (snd (callback Sample.all_down 1 Sample.op7_s500 []))
  = Request (FLASK_URL_BASE ++ strip (lit "OP7,S500"))
    :: map Run (commands_of Sample.op7_s500).
Proof.
  apply (X11_request_then_process
           Sample.all_down 1 Sample.op7_s500 (lit "OP7,S500") []).
  reflexivity.
Defined.

(** X12: no failure is swallowed without a line in the log.  An
    exception raised by the HTTP request is printed as the Flask error, an
    exception raised when starting the process is printed as the Node
    error, and so is the [ValueError] of a text that does not split in
    two. *)
Theorem X12_failures_are_logged (E : env) (text : str) (h : trace) :
  let events := snd (process_message E text h) in
  (forall e, In (HttpRaises e) (http_replies events) ->
             In (LogFlaskError e) (printed events))
  /\ (forall e, In (ProcRaises e) (proc_replies events) ->
                In (LogNodeError e) (printed events))
  /\ (forall e, split_fields (strip text) = Raise e ->
                In (LogNodeError e) (printed events)).
Proof.
  run_script.
  destruct (requests_get E _ _) as [code|e1];
    (destruct (split_fields (strip text)) as [[op_area station]|e2];
     [destruct (subprocess_run E _ _) as [rc out [|c err]|e3]|]);
    cbn; repeat split; intros e0 H;
    repeat (destruct H as [H|H]);
    try discriminate; try contradiction;
    try (injection H as <-); auto 10.
Qed.
